(** * Verification of the clause-analysis orchestrator

    Shallow embedding of [src/services/nlp_analyzer.py] (class [NLPAnalyzer])
    and proofs of the properties its specification states.

    - Python floats are IEEE binary64 numbers: Rocq's primitive floats.
    - An [NLPAnalyzer] instance holds two collaborators and a threshold.  The
      collaborators (classifier, embedding generator) are external, stateful
      objects whose methods may raise: they are an interface here.
    - Exceptions and mutation are a state-and-exception monad in which the
      state survives a raise, as in Python.
    - Every collaborator call and every log record is appended to a trace. *)

From Stdlib Require Import Floats ZArith.
From stdpp Require Import gmap strings list.

Set Warnings "-inexact-float".

(** ** Exceptions and results *)

(** The exception classes the orchestrator distinguishes.  [InferenceError]
    comes from [utils.error_handler] and carries a [details] dictionary;
    [ValueError] is the builtin; [Exception] stands for any other subclass of
    Python's [Exception]. *)
Inductive exn : Type :=
| InferenceError (message : string) (details : list (string * string))
| ValueError (message : string)
| Exception (message : string).

(** [str(e)] *)
Definition str (e : exn) : string :=
  match e with
  | InferenceError m _ => m
  | ValueError m => m
  | Exception m => m
  end.

Definition is_InferenceError (e : exn) : bool :=
  match e with InferenceError _ _ => true | _ => false end.

Inductive result (A : Type) : Type :=
| Ok (a : A)
| Raise (e : exn).
Arguments Ok {A} a.
Arguments Raise {A} e.

Definition raised {A} (r : result A) : bool :=
  match r with Ok _ => false | Raise _ => true end.

(** ** Data model *)

Module Clause.
(** [models.clause.Clause], as far as the orchestrator reads it. *)
Record t : Type := mk { clause_id : string; text : string }.
End Clause.

Module ClauseAnalysis.
(** Modelled from the spec: [models/clause_analysis.py] is not part of the
    sources at hand.  The specification's data model gives the six fields
    and says nothing is enforced at construction: a plain record. *)
Record t : Type := mk {
  clause_id : string;
  clause_text : string;
  clause_type : string;
  confidence_score : float;
  embeddings : option (list float);
  alternative_types : list (string * float)
}.
End ClauseAnalysis.

(** What [classifier.predict] returns: [(clause_type, confidence, alternatives)]. *)
Definition Prediction : Type := (string * float * list (string * float))%type.

(** The dictionary returned by [get_analysis_summary]. *)
Record Summary : Type := {
  total_clauses : nat;
  avg_confidence : float;
  low_confidence_count : nat;
  clause_type_distribution : gmap string nat
}.

(** ** Trace: collaborator calls and log records *)

Inductive Level : Type := DEBUG | INFO | WARNING | ERROR.

(** One constructor per [logger] call of the source, carrying the values the
    message interpolates. *)
Inductive Message : Type :=
| MsgInitialized (confidence_threshold : float)
| MsgAnalyzing (clause_id : string)
| MsgClassificationFailed (clause_id : string) (e : string)
| MsgEmbeddingFailed (clause_id : string) (e : string)
| MsgLowConfidenceReview (confidence : float) (clause_id clause_type : string)
| MsgAnalyzed (clause_id clause_type : string) (confidence : float)
| MsgUnexpected (clause_id : string) (e : string)
| MsgBatchStart (n : nat)
| MsgNoClauses
| MsgStep1
| MsgLowConfidence (confidence : float) (clause_id : string)
| MsgClassifyError (clause_id : string) (e : string)
| MsgClassificationErrors (classification_errors : nat)
| MsgStep2
| MsgBatchEmbeddingError (e : string)
| MsgFallingBack
| MsgEmbeddingError (clause_id : string) (e : string)
| MsgEmbeddingErrors (embedding_errors : nat)
| MsgStep3
| MsgCreateError (clause_id : string) (e : string)
| MsgBatchComplete (analyzed low_confidence classification_errors embedding_errors : nat)
| MsgHighErrorRate (total_errors n : nat)
| MsgCritical (e : string)
| MsgReturningFallback
| MsgFoundLowConfidence (n : nat) (confidence_threshold : float)
| MsgFoundOfType (n : nat) (clause_type : string)
| MsgCreatingFallback (clause_id : string) (error_msg : string)
| MsgThresholdUpdated (threshold : float)
| MsgSummary (summary : Summary).

Inductive Event : Type :=
| CallPredict (text : string)
| CallGenerateEmbedding (text : string)
| CallGenerateEmbeddingsBatch (texts : list string) (use_cache : bool) (batch_size : Z)
| Log (level : Level) (msg : Message).

Definition is_call (ev : Event) : bool :=
  match ev with Log _ _ => false | _ => true end.

(** ** The collaborators' interfaces *)

(** [services.legal_bert_classifier.LegalBERTClassifier]: a call returns or
    raises, and may change the classifier object. *)
Class Classifier (C : Type) : Type := {
  predict : string -> C -> result Prediction * C
}.

(** [services.embedding_generator.EmbeddingGenerator]. *)
Class Embedder (G : Type) : Type := {
  generate_embedding : string -> G -> result (list float) * G;
  generate_embeddings_batch :
    list string -> bool -> Z -> G -> result (list (option (list float))) * G
}.

(** The builtins [sum] (over floats), [/] (float by int) and [round], which
    [get_analysis_summary] applies to the confidence scores. *)
Class FloatBuiltins : Type := {
  py_sum : list float -> float;
  py_truediv : float -> nat -> float;
  py_round : float -> Z -> float
}.

Section Orchestrator.

Context {C G : Type} `{!Classifier C} `{!Embedder G}.

(** ** State and the monad *)

(** The three attributes of [self], and what the module-level [logger] and
    the collaborators have recorded so far. *)
Record State : Type := {
  classifier : C;
  embedding_generator : G;
  confidence_threshold : float;
  trace : list Event
}.

Definition M (A : Type) : Type := State -> result A * State.

Definition ret {A} (a : A) : M A := fun s => (Ok a, s).

Definition bind {A B} (m : M A) (k : A -> M B) : M B :=
  fun s =>
    match m s with
    | (Ok a, s') => k a s'
    | (Raise e, s') => (Raise e, s')
    end.

Definition raise {A} (e : exn) : M A := fun s => (Raise e, s).

(** [try: m  except Exception as e: h e].  Effects of [m] before the raise
    stay. *)
Definition try_except {A} (m : M A) (h : exn -> M A) : M A :=
  fun s =>
    match m s with
    | (Ok a, s') => (Ok a, s')
    | (Raise e, s') => h e s'
    end.

Definition emit (ev : Event) : M unit :=
  fun s =>
    (Ok tt, {| classifier := classifier s;
               embedding_generator := embedding_generator s;
               confidence_threshold := confidence_threshold s;
               trace := trace s ++ [ev] |}).

Definition log (level : Level) (msg : Message) : M unit := emit (Log level msg).

(** The state [s] after the events [evs] were recorded and nothing else
    changed. *)
Definition recorded (s : State) (evs : list Event) : State :=
  {| classifier := classifier s;
     embedding_generator := embedding_generator s;
     confidence_threshold := confidence_threshold s;
     trace := trace s ++ evs |}.

(** [self.confidence_threshold] *)
Definition get_confidence_threshold : M float :=
  fun s => (Ok (confidence_threshold s), s).

(** [self.confidence_threshold = threshold] *)
Definition put_confidence_threshold (threshold : float) : M unit :=
  fun s =>
    (Ok tt, {| classifier := classifier s;
               embedding_generator := embedding_generator s;
               confidence_threshold := threshold;
               trace := trace s |}).

(** Calls of the collaborators' methods: the call is recorded, the
    collaborator object is replaced by its state after the call. *)
Definition call_predict (text : string) : M Prediction :=
  fun s =>
    let (r, c') := predict text (classifier s) in
    (r, {| classifier := c';
           embedding_generator := embedding_generator s;
           confidence_threshold := confidence_threshold s;
           trace := trace s ++ [CallPredict text] |}).

Definition call_generate_embedding (text : string) : M (list float) :=
  fun s =>
    let (r, g') := generate_embedding text (embedding_generator s) in
    (r, {| classifier := classifier s;
           embedding_generator := g';
           confidence_threshold := confidence_threshold s;
           trace := trace s ++ [CallGenerateEmbedding text] |}).

Definition call_generate_embeddings_batch
    (texts : list string) (use_cache : bool) (batch_size : Z)
  : M (list (option (list float))) :=
  fun s =>
    let (r, g') :=
      generate_embeddings_batch texts use_cache batch_size (embedding_generator s) in
    (r, {| classifier := classifier s;
           embedding_generator := g';
           confidence_threshold := confidence_threshold s;
           trace := trace s ++ [CallGenerateEmbeddingsBatch texts use_cache batch_size] |}).

Notation "'let*' x ':=' m 'in' k" := (bind m (fun x => k))
  (at level 10, x pattern, m at level 100, k at level 200).
Notation "m '>>' k" := (bind m (fun _ => k))
  (at level 60, right associativity).

(** [if b: m] *)
Definition when (b : bool) (m : M unit) : M unit := if b then m else ret tt.

(** ** [NLPAnalyzer.__init__]

    With both collaborators given; [logged] is what the module's logger holds
    when the analyzer is created. *)
Definition __init__ (classifier : C) (embedding_generator : G)
    (confidence_threshold : float) (logged : list Event) : State :=
  {| classifier := classifier;
     embedding_generator := embedding_generator;
     confidence_threshold := confidence_threshold;
     trace := logged ++ [Log INFO (MsgInitialized confidence_threshold)] |}.

(** The constructor call [ClauseAnalysis(clause_id=..., ...)] of the source. *)
Definition new_ClauseAnalysis
    (clause_id clause_text clause_type : string) (confidence_score : float)
    (embeddings : option (list float)) (alternative_types : list (string * float))
  : M ClauseAnalysis.t :=
  ret (ClauseAnalysis.mk clause_id clause_text clause_type confidence_score
         embeddings alternative_types).

(** ** [NLPAnalyzer._create_fallback_analysis] *)
Definition _create_fallback_analysis (clause : Clause.t) (error_msg : string)
  : M ClauseAnalysis.t :=
  log WARNING (MsgCreatingFallback (Clause.clause_id clause) error_msg) >>
  new_ClauseAnalysis (Clause.clause_id clause) (Clause.text clause)
    "Other" 0%float None [("Other", 0%float)].

(** ** [NLPAnalyzer.analyze_clause] *)
Definition analyze_clause (clause : Clause.t) : M ClauseAnalysis.t :=
  try_except
    (log DEBUG (MsgAnalyzing (Clause.clause_id clause)) >>
     (* Classify clause type *)
     let* (clause_type, confidence, alternatives) :=
       try_except
         (call_predict (Clause.text clause))
         (fun e =>
            log ERROR (MsgClassificationFailed (Clause.clause_id clause) (str e)) >>
            raise (InferenceError ("Failed to classify clause: " +:+ str e)
                     [("clause_id", Clause.clause_id clause)])) in
     (* Generate embedding *)
     let* embedding :=
       try_except
         (let* v := call_generate_embedding (Clause.text clause) in ret (Some v))
         (fun e =>
            log ERROR (MsgEmbeddingFailed (Clause.clause_id clause) (str e)) >>
            ret None) in
     (* Check if confidence is below threshold *)
     let* threshold := get_confidence_threshold in
     when (PrimFloat.ltb confidence threshold)
       (log WARNING (MsgLowConfidenceReview confidence
                       (Clause.clause_id clause) clause_type)) >>
     (* Create analysis result *)
     let* analysis :=
       new_ClauseAnalysis (Clause.clause_id clause) (Clause.text clause)
         clause_type confidence embedding alternatives in
     log INFO (MsgAnalyzed (Clause.clause_id clause) clause_type confidence) >>
     ret analysis)
    (fun e =>
       if is_InferenceError e then
         (* Re-raise inference errors *)
         raise e
       else
         log ERROR (MsgUnexpected (Clause.clause_id clause) (str e)) >>
         _create_fallback_analysis clause (str e)).

(** ** [NLPAnalyzer.analyze_clauses] *)

(** Step 1, the loop [for clause in clauses] filling [classifications] and
    counting [classification_errors].  In the [try] block only
    [classifier.predict] can raise, and it does so before the [append], so the
    handler sees the list as it was before the iteration. *)
Fixpoint classify_loop (clauses : list Clause.t)
    (classifications : list Prediction) (classification_errors : nat)
  : M (list Prediction * nat) :=
  match clauses with
  | [] => ret (classifications, classification_errors)
  | clause :: rest =>
      let* (classifications', classification_errors') :=
        try_except
          (let* (clause_type, confidence, alternatives) :=
             call_predict (Clause.text clause) in
           let classifications' :=
             classifications ++ [(clause_type, confidence, alternatives)] in
           (* Log low confidence predictions *)
           let* threshold := get_confidence_threshold in
           when (PrimFloat.ltb confidence threshold)
             (log WARNING (MsgLowConfidence confidence (Clause.clause_id clause))) >>
           ret (classifications', classification_errors))
          (fun e =>
             log ERROR (MsgClassifyError (Clause.clause_id clause) (str e)) >>
             ret (classifications ++ [("Other", 0.5%float, [("Other", 0.5%float)])],
                  S classification_errors)) in
      classify_loop rest classifications' classification_errors'
  end.

(** Step 2, the fallback loop of individual embedding calls. *)
Fixpoint embed_loop (clauses : list Clause.t)
    (embeddings : list (option (list float))) (embedding_errors : nat)
  : M (list (option (list float)) * nat) :=
  match clauses with
  | [] => ret (embeddings, embedding_errors)
  | clause :: rest =>
      let* (embeddings', embedding_errors') :=
        try_except
          (let* emb := call_generate_embedding (Clause.text clause) in
           ret (embeddings ++ [Some emb], embedding_errors))
          (fun emb_error =>
             log ERROR (MsgEmbeddingError (Clause.clause_id clause) (str emb_error)) >>
             ret (embeddings ++ [None], S embedding_errors)) in
      embed_loop rest embeddings' embedding_errors'
  end.

(** [zip(clauses, classifications, embeddings)]: stops at the shortest. *)
Fixpoint zip3 {X Y W : Type} (xs : list X) (ys : list Y) (zs : list W)
  : list (X * Y * W) :=
  match xs, ys, zs with
  | x :: xs', y :: ys', z :: zs' => (x, y, z) :: zip3 xs' ys' zs'
  | _, _, _ => []
  end.

(** Step 3, the loop over the zipped triples filling [analyses]. *)
Fixpoint combine_loop
    (items : list (Clause.t * Prediction * option (list float)))
    (analyses : list ClauseAnalysis.t)
  : M (list ClauseAnalysis.t) :=
  match items with
  | [] => ret analyses
  | (clause, (clause_type, confidence, alternatives), embedding) :: rest =>
      let* analyses' :=
        try_except
          (let* analysis :=
             new_ClauseAnalysis (Clause.clause_id clause) (Clause.text clause)
               clause_type confidence embedding alternatives in
           ret (analyses ++ [analysis]))
          (fun e =>
             log ERROR (MsgCreateError (Clause.clause_id clause) (str e)) >>
             let* fallback := _create_fallback_analysis clause (str e) in
             ret (analyses ++ [fallback])) in
      combine_loop rest analyses'
  end.

(** [[self._create_fallback_analysis(clause, error_msg) for clause in clauses]] *)
Fixpoint fallback_all (clauses : list Clause.t) (error_msg : string)
  : M (list ClauseAnalysis.t) :=
  match clauses with
  | [] => ret []
  | clause :: rest =>
      let* a := _create_fallback_analysis clause error_msg in
      let* l := fallback_all rest error_msg in
      ret (a :: l)
  end.

(** [a.confidence_score < self.confidence_threshold] *)
Definition below (threshold : float) (a : ClauseAnalysis.t) : bool :=
  PrimFloat.ltb (ClauseAnalysis.confidence_score a) threshold.

(** [sum(1 for a in analyses if a.confidence_score < self.confidence_threshold)] *)
Definition count_below (threshold : float) (analyses : list ClauseAnalysis.t) : nat :=
  length (List.filter (below threshold) analyses).

(** The test [total_errors > len(clauses) * 0.5] compares an int with half an
    int; on integers it is [len(clauses) < 2 * total_errors]. *)
Definition analyze_clauses (clauses : list Clause.t) (batch_size : Z)
  : M (list ClauseAnalysis.t) :=
  try_except
    (log INFO (MsgBatchStart (length clauses)) >>
     match clauses with
     | [] =>
         log WARNING MsgNoClauses >>
         ret []
     | _ :: _ =>
         (* Step 1: Classify all clauses *)
         log INFO MsgStep1 >>
         let* (classifications, classification_errors) :=
           classify_loop clauses [] 0 in
         when (0 <? classification_errors)
           (log WARNING (MsgClassificationErrors classification_errors)) >>
         (* Step 2: Generate embeddings in batch *)
         log INFO MsgStep2 >>
         let clause_texts := map Clause.text clauses in
         let* (embeddings, embedding_errors) :=
           try_except
             (let* embeddings :=
                call_generate_embeddings_batch clause_texts true batch_size in
              ret (embeddings, 0))
             (fun e =>
                log ERROR (MsgBatchEmbeddingError (str e)) >>
                log INFO MsgFallingBack >>
                (* Fallback to individual embedding generation *)
                embed_loop clauses [] 0) in
         when (0 <? embedding_errors)
           (log WARNING (MsgEmbeddingErrors embedding_errors)) >>
         (* Step 3: Combine results into ClauseAnalysis objects *)
         log INFO MsgStep3 >>
         let* analyses :=
           combine_loop (zip3 clauses classifications embeddings) [] in
         (* Log summary statistics *)
         let* threshold := get_confidence_threshold in
         let low_confidence_count := count_below threshold analyses in
         log INFO (MsgBatchComplete (length analyses) low_confidence_count
                     classification_errors embedding_errors) >>
         (* Raise warning if too many errors *)
         let total_errors := classification_errors + embedding_errors in
         when (length clauses <? 2 * total_errors)
           (log ERROR (MsgHighErrorRate total_errors (length clauses))) >>
         ret analyses
     end)
    (fun e =>
       log ERROR (MsgCritical (str e)) >>
       (* Return fallback analyses for all clauses *)
       log WARNING MsgReturningFallback >>
       fallback_all clauses (str e)).

(** ** [NLPAnalyzer.get_low_confidence_clauses] *)
Definition get_low_confidence_clauses (analyses : list ClauseAnalysis.t)
  : M (list ClauseAnalysis.t) :=
  let* threshold := get_confidence_threshold in
  let low_confidence := List.filter (below threshold) analyses in
  log INFO (MsgFoundLowConfidence (length low_confidence) threshold) >>
  ret low_confidence.

(** ** [NLPAnalyzer.get_clauses_by_type] *)
Definition get_clauses_by_type (analyses : list ClauseAnalysis.t) (clause_type : string)
  : M (list ClauseAnalysis.t) :=
  let filtered :=
    List.filter (fun a => bool_decide (ClauseAnalysis.clause_type a = clause_type))
      analyses in
  log INFO (MsgFoundOfType (length filtered) clause_type) >>
  ret filtered.

(** ** [NLPAnalyzer.set_confidence_threshold] *)
Definition set_confidence_threshold (threshold : float) : M unit :=
  if negb (PrimFloat.leb 0 threshold && PrimFloat.leb threshold 1) then
    raise (ValueError "Confidence threshold must be between 0.0 and 1.0")
  else
    put_confidence_threshold threshold >>
    log INFO (MsgThresholdUpdated threshold).

(** ** [NLPAnalyzer.get_analysis_summary] *)

(** The loop [for analysis in analyses] that counts clause types:
    [type_distribution[clause_type] = type_distribution.get(clause_type, 0) + 1]. *)
Fixpoint count_types (analyses : list ClauseAnalysis.t)
    (type_distribution : gmap string nat) : gmap string nat :=
  match analyses with
  | [] => type_distribution
  | analysis :: rest =>
      let clause_type := ClauseAnalysis.clause_type analysis in
      count_types rest
        (<[clause_type := default 0 (type_distribution !! clause_type) + 1]>
           type_distribution)
  end.

Context `{!FloatBuiltins}.

Definition get_analysis_summary (analyses : list ClauseAnalysis.t) : M Summary :=
  match analyses with
  | [] =>
      ret {| total_clauses := 0;
             avg_confidence := 0%float;
             low_confidence_count := 0;
             clause_type_distribution := ∅ |}
  | _ :: _ =>
      (* Calculate statistics *)
      let total := length analyses in
      let avg_confidence :=
        py_truediv (py_sum (map ClauseAnalysis.confidence_score analyses)) total in
      let* threshold := get_confidence_threshold in
      let low_confidence_count := count_below threshold analyses in
      (* Count clause types *)
      let type_distribution := count_types analyses ∅ in
      let summary :=
        {| total_clauses := total;
           avg_confidence := py_round avg_confidence 3;
           low_confidence_count := low_confidence_count;
           clause_type_distribution := type_distribution |} in
      log INFO (MsgSummary summary) >>
      ret summary
  end.

End Orchestrator.

(** ** Python's float builtins

    What [sum], [/] and [round] do on binary64 numbers, for
    [get_analysis_summary]. *)






(** The binary64 number nearest to [k / scale], with sign [s]. *)
Definition nearest_float (s : bool) (k scale : Z) : float :=
  match k, scale with
  | Zpos p, Zpos q =>
      SF2Prim (SFdiv prec emax (S754_finite s p 0) (S754_finite false q 0))
  | _, _ => SF2Prim (S754_zero s)
  end.



(** [k] is an integer nearest to [a / d], the even one if two are equally
    near. *)
Definition nearest_integer (k a d : Z) : Prop :=
  (Z.abs (2 * (a - k * d)) ≤ d)%Z
  ∧ (Z.abs (2 * (a - k * d)) = d → Z.even k = true).

(** [y] is [x] rounded to [ndigits] decimals: the float nearest to
    [k / 10^ndigits], where [k] is the integer nearest to the exact value of
    [x] times [10^ndigits]; [x] itself when [x] is an integer or not
    finite. *)
Definition rounded_to_decimals (ndigits : Z) (x y : float) : Prop :=
  match Prim2SF x with
  | S754_finite s m e =>
      if (0 <=? e)%Z then y = x
      else
        ∃ k : Z,
          nearest_integer k (Zpos m * 10 ^ ndigits) (2 ^ (- e))
          ∧ y = nearest_float s k (10 ^ ndigits)
  | _ => y = x
  end.

(** ** Vocabulary of the statements *)

(** The number of calls that raised. *)
Definition failures {A} (rs : list (result A)) : nat :=
  length (List.filter raised rs).

(** The number of records of a given clause type. *)
Definition occurrences (clause_type : string) (analyses : list ClauseAnalysis.t) : nat :=
  length (List.filter
            (fun a => bool_decide (ClauseAnalysis.clause_type a = clause_type))
            analyses).

Section Vocabulary.

Context {C G : Type} `{!Classifier C} `{!Embedder G}.

(** [s] with its threshold replaced, as after a successful
    [set_confidence_threshold]. *)
Definition with_threshold (s : State (C:=C) (G:=G)) (threshold : float) : State :=
  {| classifier := classifier s;
     embedding_generator := embedding_generator s;
     confidence_threshold := threshold;
     trace := trace s |}.

(** What the classifier answers, in order, when it is asked about each text
    of a list in turn, starting as [c]; and the classifier after that. *)
Fixpoint outcomes (texts : list string) (c : C) : list (result Prediction) :=
  match texts with
  | [] => []
  | t :: ts => (predict t c).1 :: outcomes ts (predict t c).2
  end.

Fixpoint classifier_after (texts : list string) (c : C) : C :=
  match texts with
  | [] => c
  | t :: ts => classifier_after ts (predict t c).2
  end.

(** The same for [generate_embedding] and the embedding generator. *)
Fixpoint embedding_outcomes (texts : list string) (g : G) : list (result (list float)) :=
  match texts with
  | [] => []
  | t :: ts =>
      (generate_embedding t g).1 :: embedding_outcomes ts (generate_embedding t g).2
  end.

Fixpoint embedder_after (texts : list string) (g : G) : G :=
  match texts with
  | [] => g
  | t :: ts => embedder_after ts (generate_embedding t g).2
  end.

(** The embedding Step 2's fallback loop records for one call. *)
Definition recorded_embedding (r : result (list float)) : option (list float) :=
  match r with
  | Ok v => Some v
  | Raise _ => None
  end.

(** The embeddings Step 2 hands to Step 3, and its error count: the batch
    call's answer and no error, or, when the batch call raised, what the
    individual calls made afterwards gave. *)
Definition stage2_embeddings (texts : list string) (batch_size : Z) (g : G)
  : list (option (list float)) :=
  match generate_embeddings_batch texts true batch_size g with
  | (Ok l, _) => l
  | (Raise _, g') => map recorded_embedding (embedding_outcomes texts g')
  end.

Definition stage2_errors (texts : list string) (batch_size : Z) (g : G) : nat :=
  match generate_embeddings_batch texts true batch_size g with
  | (Ok _, _) => 0
  | (Raise _, g') => failures (embedding_outcomes texts g')
  end.

End Vocabulary.

(** The triple Step 1 records for one call of the classifier: its answer, or
    the substitute when the call raised. *)
Definition recorded_classification (r : result Prediction) : Prediction :=
  match r with
  | Ok p => p
  | Raise _ => ("Other", 0.5%float, [("Other", 0.5%float)])
  end.

(** The record Step 3 builds from one zipped triple. *)
Definition assembled (item : Clause.t * Prediction * option (list float))
  : ClauseAnalysis.t :=
  let '(clause, (clause_type, confidence, alternatives), embedding) := item in
  ClauseAnalysis.mk (Clause.clause_id clause) (Clause.text clause)
    clause_type confidence embedding alternatives.

Definition is_batch_complete (ev : Event) : bool :=
  match ev with Log _ (MsgBatchComplete _ _ _ _) => true | _ => false end.

(** ** Test doubles

    Scripted collaborators, as a unit test would mock them: each call of the
    classifier (of [generate_embedding]) takes the next scripted answer, and
    raises once the script is used up; the batch call either raises or
    returns one vector per text. *)

Definition scripted_predict (text : string) (script : list (result Prediction))
  : result Prediction * list (result Prediction) :=
  match script with
  | [] => (Raise (Exception "no answer scripted"), [])
  | r :: script' => (r, script')
  end.

#[export] Instance scripted_classifier : Classifier (list (result Prediction)) :=
  {| predict := scripted_predict |}.

Record ScriptedEmbedder : Type := {
  answers : list (result (list float));
  batch_raises : bool
}.

Definition scripted_generate_embedding (text : string) (g : ScriptedEmbedder)
  : result (list float) * ScriptedEmbedder :=
  match answers g with
  | [] => (Raise (Exception "no answer scripted"), g)
  | r :: rest => (r, {| answers := rest; batch_raises := batch_raises g |})
  end.

Definition scripted_generate_embeddings_batch
    (texts : list string) (use_cache : bool) (batch_size : Z) (g : ScriptedEmbedder)
  : result (list (option (list float))) * ScriptedEmbedder :=
  if batch_raises g then (Raise (Exception "batch failed"), g)
  else (Ok (map (fun _ => Some [1%float]) texts), g).

#[export] Instance scripted_embedder : Embedder ScriptedEmbedder :=
  {| generate_embedding := scripted_generate_embedding;
     generate_embeddings_batch := scripted_generate_embeddings_batch |}.

(** An analyzer over scripted collaborators, with the default threshold. *)
Definition scripted_state (script : list (result Prediction)) (g : ScriptedEmbedder)
  : State :=
  __init__ script g 0.75%float [].

Definition clause_nda : Clause.t := Clause.mk "c1" "Each party shall keep it secret.".
Definition clause_pay : Clause.t := Clause.mk "c2" "Payment is due in 30 days.".

Definition confidential : Prediction :=
  ("Confidentiality", 0.92%float,
   [("Confidentiality", 0.92%float); ("NDA", 0.05%float)]).

Definition analysis_with (confidence : float) : ClauseAnalysis.t :=
  ClauseAnalysis.mk "id" "text" "Other" confidence None [].

Definition clause_term : Clause.t := Clause.mk "c3" "Either party may terminate.".
Definition clause_law : Clause.t := Clause.mk "c4" "Governed by the laws of Utopia.".
Definition clause_misc : Clause.t := Clause.mk "c5" "Headings are for convenience.".

Definition five_clauses : list Clause.t :=
  [clause_nda; clause_pay; clause_term; clause_law; clause_misc].

(** The classifier answers four of five calls and raises on the third. *)
Definition one_failure_script : list (result Prediction) :=
  [Ok confidential; Ok confidential; Raise (Exception "out of memory");
   Ok confidential; Ok confidential].

Definition healthy_embedder : ScriptedEmbedder :=
  {| answers := [Ok [1%float]; Ok [1%float]; Ok [1%float]; Ok [1%float]];
     batch_raises := false |}.

(** The batch call raises; of the individual calls, the third raises. *)
Definition degraded_embedder : ScriptedEmbedder :=
  {| answers := [Ok [1%float]; Ok [1%float]; Raise (Exception "bad text"); Ok [1%float]];
     batch_raises := true |}.

(** An embedding generator whose batch call returns at most [n] entries,
    however many texts it is given, and whose individual call raises. *)
Definition capped_generate_embeddings_batch
    (texts : list string) (use_cache : bool) (batch_size : Z) (n : nat)
  : result (list (option (list float))) * nat :=
  (Ok (take n (map (λ _ : string, Some [1%float]) texts)), n).

#[export] Instance capped_embedder : Embedder nat :=
  {| generate_embedding := λ _ n, (Raise (Exception "not available"), n);
     generate_embeddings_batch := capped_generate_embeddings_batch |}.

(** Float builtins for running the summary on the test doubles: a left to
    right sum, IEEE division, and no rounding (the statements run on them do
    not read the average). *)
#[export] Instance unrounded_builtins : FloatBuiltins :=
  {| py_sum := λ l, fold_left PrimFloat.add l 0%float;
     py_truediv := λ x n, PrimFloat.div x (PrimFloat.of_uint63 (Uint63.of_Z (Z.of_nat n)));
     py_round := λ x _, x |}.

Definition four_analyses : list ClauseAnalysis.t :=
  [analysis_with 0.9%float; analysis_with 0.5%float;
   analysis_with 0.8%float; analysis_with 0.3%float].

(** ** Vocabulary of the trace *)

Definition is_high_error_rate (ev : Event) : bool :=
  match ev with Log _ (MsgHighErrorRate _ _) => true | _ => false end.

Definition is_low_confidence_warning (ev : Event) : bool :=
  match ev with Log WARNING (MsgLowConfidence _ _) => true | _ => false end.

(** A call of the classifier that returned with a confidence below the
    threshold. *)
Definition low_confidence_outcome (threshold : float) (r : result Prediction) : bool :=
  match r with
  | Ok (_, confidence, _) => PrimFloat.ltb confidence threshold
  | Raise _ => false
  end.

(** The sum of the counts a dictionary holds. *)
Definition sum_counts (m : gmap string nat) : nat :=
  map_fold (λ (_ : string) (n acc : nat), n + acc) 0 m.

Section TraceVocabulary.

Context {C G : Type} `{!Classifier C} `{!Embedder G}.

(** What Step 1 records while it runs over the clauses, the classifier
    starting as [c]: each call, then the warning or the error it led to. *)
Fixpoint classify_events (clauses : list Clause.t) (c : C) (threshold : float)
  : list Event :=
  match clauses with
  | [] => []
  | clause :: rest =>
      CallPredict (Clause.text clause)
      :: match (predict (Clause.text clause) c).1 with
         | Ok (_, confidence, _) =>
             if PrimFloat.ltb confidence threshold
             then [Log WARNING (MsgLowConfidence confidence (Clause.clause_id clause))]
             else []
         | Raise e =>
             [Log ERROR (MsgClassifyError (Clause.clause_id clause) (str e))]
         end
      ++ classify_events rest (predict (Clause.text clause) c).2 threshold
  end.

(** What the fallback loop of Step 2 records, the generator starting as [g]. *)
Fixpoint embed_events (clauses : list Clause.t) (g : G) : list Event :=
  match clauses with
  | [] => []
  | clause :: rest =>
      CallGenerateEmbedding (Clause.text clause)
      :: match (generate_embedding (Clause.text clause) g).1 with
         | Ok _ => []
         | Raise e =>
             [Log ERROR (MsgEmbeddingError (Clause.clause_id clause) (str e))]
         end
      ++ embed_events rest (generate_embedding (Clause.text clause) g).2
  end.

(** The embedding generator after Step 2. *)
Definition stage2_embedder (texts : list string) (batch_size : Z) (g : G) : G :=
  match generate_embeddings_batch texts true batch_size g with
  | (Ok _, g') => g'
  | (Raise _, g') => embedder_after texts g'
  end.

(** What Step 2 records. *)
Definition stage2_events (clauses : list Clause.t) (batch_size : Z) (g : G)
  : list Event :=
  CallGenerateEmbeddingsBatch (map Clause.text clauses) true batch_size
  :: match generate_embeddings_batch (map Clause.text clauses) true batch_size g with
     | (Ok _, _) => []
     | (Raise e, g') =>
         [Log ERROR (MsgBatchEmbeddingError (str e)); Log INFO MsgFallingBack]
         ++ embed_events clauses g'
     end.

End TraceVocabulary.

(** * Properties *)

Section Properties.

Context {C G : Type} `{!Classifier C} `{!Embedder G}.

Implicit Types (s : State (C:=C) (G:=G)) (clause : Clause.t).

(** C3: for every clause and every error message, fallback synthesis returns
    (it never raises) the record with the clause's id and text, type "Other",
    confidence 0.0, no embedding and alternatives [("Other", 0.0)]; its only
    effect is one warning in the log. *)
Theorem create_fallback_analysis_total clause (error_msg : string) s :
  _create_fallback_analysis clause error_msg s =
    (Ok {| ClauseAnalysis.clause_id := Clause.clause_id clause;
           ClauseAnalysis.clause_text := Clause.text clause;
           ClauseAnalysis.clause_type := "Other";
           ClauseAnalysis.confidence_score := 0%float;
           ClauseAnalysis.embeddings := None;
           ClauseAnalysis.alternative_types := [("Other", 0%float)] |},
     recorded s [Log WARNING (MsgCreatingFallback (Clause.clause_id clause) error_msg)]).
Proof. reflexivity. Qed.

Ltac run_monad :=
  unfold bind, try_except, ret, raise, when, log, emit, recorded, with_threshold,
    new_ClauseAnalysis, get_confidence_threshold, put_confidence_threshold,
    call_predict, call_generate_embedding, call_generate_embeddings_batch in *;
  simpl in *.

(** The single-clause path, case by case on what the collaborators do. *)
Lemma analyze_clause_classifier_raises clause s e c' :
  predict (Clause.text clause) (classifier s) = (Raise e, c') →
  (analyze_clause clause s).1 =
    Raise (InferenceError ("Failed to classify clause: " +:+ str e)
             [("clause_id", Clause.clause_id clause)]).
Proof.
  intros Hp. unfold analyze_clause, _create_fallback_analysis. run_monad.
  rewrite Hp. reflexivity.
Qed.

Lemma analyze_clause_classifier_returns clause s clause_type confidence alternatives c' :
  predict (Clause.text clause) (classifier s)
    = (Ok (clause_type, confidence, alternatives), c') →
  (analyze_clause clause s).1 =
    Ok {| ClauseAnalysis.clause_id := Clause.clause_id clause;
          ClauseAnalysis.clause_text := Clause.text clause;
          ClauseAnalysis.clause_type := clause_type;
          ClauseAnalysis.confidence_score := confidence;
          ClauseAnalysis.embeddings :=
            match (generate_embedding (Clause.text clause) (embedding_generator s)).1 with
            | Ok v => Some v
            | Raise _ => None
            end;
          ClauseAnalysis.alternative_types := alternatives |}.
Proof.
  intros Hp. unfold analyze_clause, _create_fallback_analysis. run_monad.
  rewrite Hp.
  destruct (generate_embedding _ _) as [[v|e] g']; simpl;
    destruct (PrimFloat.ltb confidence (confidence_threshold s)); reflexivity.
Qed.

(** C2: single-clause analysis raises exactly when the classifier's call
    raises; what it raises then is an InferenceError whose details carry the
    clause's id; and when the classifier returns, whatever happens afterwards,
    a record is returned. *)
Theorem analyze_clause_raises_iff_classifier_raises clause s :
  raised (analyze_clause clause s).1
    = raised (predict (Clause.text clause) (classifier s)).1
  ∧ (∀ e, (analyze_clause clause s).1 = Raise e →
       ∃ cause,
         (predict (Clause.text clause) (classifier s)).1 = Raise cause
         ∧ e = InferenceError ("Failed to classify clause: " +:+ str cause)
                 [("clause_id", Clause.clause_id clause)])
  ∧ (∀ p, (predict (Clause.text clause) (classifier s)).1 = Ok p →
       ∃ a, (analyze_clause clause s).1 = Ok a).
Proof.
  destruct (predict (Clause.text clause) (classifier s)) as [[[[ty cf] al]|cause] c'] eqn:Hp;
    simpl.
  - rewrite (analyze_clause_classifier_returns _ _ _ _ _ _ Hp). simpl.
    split; [reflexivity|]. split; [discriminate|]. eauto.
  - rewrite (analyze_clause_classifier_raises _ _ _ _ Hp). simpl.
    split; [reflexivity|]. split; [|discriminate].
    intros e [= <-]. eauto.
Qed.

(** C5: when the classifier returns (category, confidence, alternatives), the
    record returned has the clause's id and text, exactly these three values,
    and as embedding the generator's vector, or none when the generator
    raised. *)
Theorem analyze_clause_classified clause s clause_type confidence alternatives c' :
  predict (Clause.text clause) (classifier s)
    = (Ok (clause_type, confidence, alternatives), c') →
  ∃ a, (analyze_clause clause s).1 = Ok a
    ∧ ClauseAnalysis.clause_id a = Clause.clause_id clause
    ∧ ClauseAnalysis.clause_text a = Clause.text clause
    ∧ ClauseAnalysis.clause_type a = clause_type
    ∧ ClauseAnalysis.confidence_score a = confidence
    ∧ ClauseAnalysis.alternative_types a = alternatives
    ∧ (∀ v, (generate_embedding (Clause.text clause) (embedding_generator s)).1 = Ok v →
         ClauseAnalysis.embeddings a = Some v)
    ∧ (∀ e, (generate_embedding (Clause.text clause) (embedding_generator s)).1 = Raise e →
         ClauseAnalysis.embeddings a = None).
Proof.
  intros Hp. eexists. split; [exact (analyze_clause_classifier_returns _ _ _ _ _ _ Hp)|].
  simpl. repeat split; intros x Hx; rewrite Hx; reflexivity.
Qed.

(** C10: with the collaborators in the same state, two runs of single-clause
    analysis under two thresholds return the same result, leave the
    collaborators in the same state and make the same collaborator calls; the
    threshold itself is not changed.  Only log records can differ. *)
Theorem analyze_clause_threshold_independent clause s (t1 t2 : float) :
  let r1 := analyze_clause clause (with_threshold s t1) in
  let r2 := analyze_clause clause (with_threshold s t2) in
  r1.1 = r2.1
  ∧ classifier r1.2 = classifier r2.2
  ∧ embedding_generator r1.2 = embedding_generator r2.2
  ∧ List.filter is_call (trace r1.2) = List.filter is_call (trace r2.2)
  ∧ confidence_threshold r1.2 = t1
  ∧ confidence_threshold r2.2 = t2.
Proof.
  unfold analyze_clause, _create_fallback_analysis. run_monad.
  destruct (predict _ _) as [[[[ty cf] al]|cause] c']; simpl.
  - destruct (generate_embedding _ _) as [[v|e] g']; simpl;
      destruct (PrimFloat.ltb cf t1), (PrimFloat.ltb cf t2); simpl;
      rewrite ?List.filter_app; simpl; rewrite ?app_nil_r; repeat split; reflexivity.
  - rewrite ?List.filter_app. repeat split; reflexivity.
Qed.

(** C9: on the empty list, batch analysis returns the empty list; it logs two
    records, calls neither collaborator and leaves both untouched. *)
Theorem analyze_clauses_empty (batch_size : Z) s :
  analyze_clauses [] batch_size s =
    (Ok [], recorded s [Log INFO (MsgBatchStart 0); Log WARNING MsgNoClauses])
  ∧ List.filter is_call (trace (analyze_clauses [] batch_size s).2)
      = List.filter is_call (trace s)
  ∧ classifier (analyze_clauses [] batch_size s).2 = classifier s
  ∧ embedding_generator (analyze_clauses [] batch_size s).2 = embedding_generator s.
Proof.
  unfold analyze_clauses. run_monad. rewrite <- app_assoc. simpl.
  split; [reflexivity|].
  rewrite List.filter_app. simpl. rewrite app_nil_r. repeat split; reflexivity.
Qed.

(** A list comprehension with a condition keeps a sublist. *)
Lemma filter_sublist {A} (f : A → bool) (l : list A) : sublist (List.filter f l) l.
Proof.
  induction l as [|x l IH]; simpl.
  - constructor.
  - destruct (f x); [apply sublist_skip | apply sublist_cons]; exact IH.
Qed.

Lemma get_low_confidence_clauses_run (analyses : list ClauseAnalysis.t) s :
  get_low_confidence_clauses analyses s =
    (Ok (List.filter (below (confidence_threshold s)) analyses),
     recorded s
       [Log INFO (MsgFoundLowConfidence
                    (length (List.filter (below (confidence_threshold s)) analyses))
                    (confidence_threshold s))]).
Proof. reflexivity. Qed.

(** C7: the low-confidence filter returns the records whose confidence is
    strictly below the current threshold, each as often as it occurs and in
    the original order: a sublist of the input that holds exactly those
    records.  With confidences 0.9, 0.5, 0.8, 0.3 and threshold 0.75 these
    are the second and the fourth record. *)
Theorem get_low_confidence_clauses_exact (analyses : list ClauseAnalysis.t) s :
  (∃ low,
     (get_low_confidence_clauses analyses s).1 = Ok low
     ∧ low = List.filter (below (confidence_threshold s)) analyses
     ∧ sublist low analyses
     ∧ (∀ a, a ∈ low ↔
          a ∈ analyses
          ∧ PrimFloat.ltb (ClauseAnalysis.confidence_score a) (confidence_threshold s) = true)
     ∧ length low = count_below (confidence_threshold s) analyses)
  ∧ (∀ a b c d : ClauseAnalysis.t,
       ClauseAnalysis.confidence_score a = 0.9%float →
       ClauseAnalysis.confidence_score b = 0.5%float →
       ClauseAnalysis.confidence_score c = 0.8%float →
       ClauseAnalysis.confidence_score d = 0.3%float →
       confidence_threshold s = 0.75%float →
       (get_low_confidence_clauses [a; b; c; d] s).1 = Ok [b; d]).
Proof.
  split.
  - rewrite get_low_confidence_clauses_run. simpl. eexists.
    split; [reflexivity|]. split; [reflexivity|].
    split; [apply filter_sublist|]. split; [|reflexivity].
    intros a. rewrite !list_elem_of_In, List.filter_In. reflexivity.
  - intros a b c d Ha Hb Hc Hd Ht. rewrite get_low_confidence_clauses_run. simpl.
    unfold below. rewrite Ha, Hb, Hc, Hd, Ht. reflexivity.
Qed.

(** C6: setting the threshold raises exactly when the value is not within
    [0.0, 1.0]: it raises for -0.1 and 1.1 and not for 0.0 and 1.0.  When it
    raises, it is a ValueError and the state is what it was.  When it returns,
    the stored threshold is the new value and the low-confidence filter that
    follows uses it. *)
Theorem set_confidence_threshold_validates (threshold : float) s :
  let r := set_confidence_threshold threshold s in
  (raised r.1 = true ↔
     ¬ (PrimFloat.leb 0 threshold = true ∧ PrimFloat.leb threshold 1 = true))
  ∧ (∀ e, r.1 = Raise e →
       e = ValueError "Confidence threshold must be between 0.0 and 1.0" ∧ r.2 = s)
  ∧ (r.1 = Ok tt →
       confidence_threshold r.2 = threshold
       ∧ classifier r.2 = classifier s
       ∧ embedding_generator r.2 = embedding_generator s
       ∧ ∀ analyses,
           (get_low_confidence_clauses analyses r.2).1
             = Ok (List.filter (below threshold) analyses))
  ∧ raised (set_confidence_threshold (-0.1)%float s).1 = true
  ∧ raised (set_confidence_threshold 1.1%float s).1 = true
  ∧ (set_confidence_threshold 0%float s).1 = Ok tt
  ∧ (set_confidence_threshold 1%float s).1 = Ok tt.
Proof.
  unfold set_confidence_threshold. run_monad.
  split; [|split; [|split; [|repeat split]]].
  - destruct (PrimFloat.leb 0 threshold), (PrimFloat.leb threshold 1); simpl;
      split; intros Hr; try discriminate; try reflexivity.
    + destruct Hr. split; reflexivity.
    + intros [_ ?]. discriminate.
    + intros [? _]. discriminate.
    + intros [? _]. discriminate.
  - intros e. destruct (PrimFloat.leb 0 threshold && PrimFloat.leb threshold 1); simpl.
    + discriminate.
    + intros [= <-]. split; reflexivity.
  - destruct (PrimFloat.leb 0 threshold && PrimFloat.leb threshold 1); simpl.
    + intros _. repeat split; reflexivity.
    + discriminate.
Qed.

(** The counting loop adds, for every clause type, its number of occurrences
    to what the dictionary held, and creates no key for a type that does not
    occur. *)
Lemma count_types_lookup (analyses : list ClauseAnalysis.t) :
  ∀ (m : gmap string nat) (clause_type : string),
    count_types analyses m !! clause_type =
      if occurrences clause_type analyses =? 0 then m !! clause_type
      else Some (default 0 (m !! clause_type) + occurrences clause_type analyses).
Proof.
  induction analyses as [|a analyses IH]; intros m ty.
  - reflexivity.
  - simpl. rewrite IH. unfold occurrences. simpl.
    destruct (bool_decide_reflect (ClauseAnalysis.clause_type a = ty)) as [->|Hne]; simpl.
    + rewrite lookup_insert_eq. simpl.
      destruct (length _ =? 0) eqn:Hk.
      * apply Nat.eqb_eq in Hk. rewrite Hk. reflexivity.
      * f_equal. lia.
    + rewrite lookup_insert_ne by exact Hne. reflexivity.
Qed.



Lemma nearest_integer_unique (k1 k2 a d : Z) :
  (0 < d)%Z → nearest_integer k1 a d → nearest_integer k2 a d → k1 = k2.
Proof.
  intros Hd [H1 E1] [H2 E2].
  assert (Hk : (k1 = k2 ∨ k1 = k2 + 1 ∨ k2 = k1 + 1)%Z) by nia.
  destruct Hk as [Hk|[Hk|Hk]]; [exact Hk| |].
  - subst k1.
    assert (Ht1 : Z.abs (2 * (a - (k2 + 1) * d)) = d) by nia.
    assert (Ht2 : Z.abs (2 * (a - k2 * d)) = d) by nia.
    specialize (E1 Ht1). specialize (E2 Ht2).
    rewrite Z.even_add, E2 in E1. discriminate.
  - subst k2.
    assert (Ht1 : Z.abs (2 * (a - k1 * d)) = d) by nia.
    assert (Ht2 : Z.abs (2 * (a - (k1 + 1) * d)) = d) by nia.
    specialize (E1 Ht1). specialize (E2 Ht2).
    rewrite Z.even_add, E1 in E2. discriminate.
Qed.

Lemma pow2_neg_exponent_pos (e : Z) : (0 <=? e)%Z = false → (0 < 2 ^ (- e))%Z.
Proof. intros He. apply Z.leb_gt in He. apply Z.pow_pos_nonneg; lia. Qed.


Lemma rounded_to_decimals_unique (ndigits : Z) (x y1 y2 : float) :
  rounded_to_decimals ndigits x y1 → rounded_to_decimals ndigits x y2 → y1 = y2.
Proof.
  unfold rounded_to_decimals.
  destruct (Prim2SF x) as [s|s| |s m e]; try congruence.
  destruct (0 <=? e)%Z eqn:He; [congruence|].
  intros (k1 & Hk1 & ->) (k2 & Hk2 & ->).
  rewrite (nearest_integer_unique k1 k2 _ _ (pow2_neg_exponent_pos e He) Hk1 Hk2).
  reflexivity.
Qed.



(** ** The batch pipeline, stage by stage *)

Lemma outcomes_length (texts : list string) :
  ∀ c : C, length (outcomes texts c) = length texts.
Proof. induction texts as [|t ts IH]; intros c; simpl; [|rewrite IH]; reflexivity. Qed.

Lemma zip3_length {X Y W} (xs : list X) :
  ∀ (ys : list Y) (zs : list W),
    length ys = length xs → length xs ≤ length zs →
    length (zip3 xs ys zs) = length xs.
Proof.
  induction xs as [|x xs IH]; intros [|y ys] [|z zs] Hy Hz; simpl in *;
    try reflexivity; try lia.
  rewrite IH by lia. reflexivity.
Qed.

Lemma zip3_lookup {X Y W} (xs : list X) :
  ∀ (ys : list Y) (zs : list W) i x y z,
    xs !! i = Some x → ys !! i = Some y → zs !! i = Some z →
    zip3 xs ys zs !! i = Some (x, y, z).
Proof.
  induction xs as [|x0 xs IH]; intros [|y0 ys] [|z0 zs] [|i] x y z Hx Hy Hz;
    simpl in *; try discriminate.
  - congruence.
  - eapply IH; eassumption.
Qed.

(** Step 1 classifies the clauses in order, keeps one triple per clause and
    counts the calls that raised; it touches neither the embedding generator
    nor the threshold. *)
Lemma classify_loop_run (clauses : list Clause.t) :
  ∀ (acc : list Prediction) (n : nat) s,
    ∃ evs,
      classify_loop clauses acc n s =
        (Ok (acc ++ map recorded_classification
                      (outcomes (map Clause.text clauses) (classifier s)),
             n + failures (outcomes (map Clause.text clauses) (classifier s))),
         {| classifier := classifier_after (map Clause.text clauses) (classifier s);
            embedding_generator := embedding_generator s;
            confidence_threshold := confidence_threshold s;
            trace := trace s ++ evs |})
      ∧ List.filter is_batch_complete evs = [].
Proof.
  induction clauses as [|clause rest IH]; intros acc n s.
  - exists []. simpl. unfold ret, failures. simpl.
    rewrite !app_nil_r, Nat.add_0_r. destruct s; split; reflexivity.
  - simpl. unfold bind at 1. unfold try_except at 1. unfold bind at 1.
    unfold call_predict at 1.
    destruct (predict (Clause.text clause) (classifier s))
      as [[[[ty cf] al]|e] c'] eqn:Hp; simpl.
    + run_monad.
      destruct (PrimFloat.ltb cf (confidence_threshold s)); simpl;
        match goal with
        | |- context [classify_loop rest ?a ?k ?st] =>
            destruct (IH a k st) as [evs [-> Hevs]]
        end; simpl; rewrite <- !app_assoc; simpl;
        eexists; (split; [reflexivity|]); simpl; exact Hevs.
    + run_monad.
      match goal with
      | |- context [classify_loop rest ?a ?k ?st] =>
          destruct (IH a k st) as [evs [-> Hevs]]
      end; simpl; rewrite <- !app_assoc; simpl.
      eexists. split.
      * unfold failures. simpl. rewrite Nat.add_succ_r. reflexivity.
      * simpl. exact Hevs.
Qed.

Lemma embedding_outcomes_length (texts : list string) :
  ∀ g : G, length (embedding_outcomes texts g) = length texts.
Proof. induction texts as [|t ts IH]; intros g; simpl; [|rewrite IH]; reflexivity. Qed.

(** The fallback loop of Step 2 asks for each clause's embedding in order,
    keeps one entry per clause and counts the calls that raised. *)
Lemma embed_loop_run (clauses : list Clause.t) :
  ∀ (acc : list (option (list float))) (n : nat) s,
    ∃ evs,
      embed_loop clauses acc n s =
        (Ok (acc ++ map recorded_embedding
                      (embedding_outcomes (map Clause.text clauses) (embedding_generator s)),
             n + failures (embedding_outcomes (map Clause.text clauses)
                             (embedding_generator s))),
         {| classifier := classifier s;
            embedding_generator :=
              embedder_after (map Clause.text clauses) (embedding_generator s);
            confidence_threshold := confidence_threshold s;
            trace := trace s ++ evs |})
      ∧ List.filter is_batch_complete evs = [].
Proof.
  induction clauses as [|clause rest IH]; intros acc n s.
  - exists []. simpl. unfold ret, failures. simpl.
    rewrite !app_nil_r, Nat.add_0_r. destruct s; split; reflexivity.
  - simpl. unfold bind at 1. unfold try_except at 1. unfold bind at 1.
    unfold call_generate_embedding at 1.
    destruct (generate_embedding (Clause.text clause) (embedding_generator s))
      as [[v|e] g'] eqn:Hg; simpl; run_monad;
      match goal with
      | |- context [embed_loop rest ?a ?k ?st] =>
          destruct (IH a k st) as [evs [-> Hevs]]
      end; simpl; rewrite <- !app_assoc; simpl; eexists; split.
    + reflexivity.
    + simpl. exact Hevs.
    + unfold failures. simpl. rewrite Nat.add_succ_r. reflexivity.
    + simpl. exact Hevs.
Qed.

(** Step 3 builds one record per zipped triple and has no other effect. *)
Lemma combine_loop_run (items : list (Clause.t * Prediction * option (list float))) :
  ∀ (acc : list ClauseAnalysis.t) s,
    combine_loop items acc s = (Ok (acc ++ map assembled items), s).
Proof.
  induction items as [|[[clause [[ty cf] al]] emb] items IH]; intros acc s; simpl.
  - unfold ret. rewrite app_nil_r. reflexivity.
  - run_monad. rewrite IH, <- app_assoc. reflexivity.
Qed.

(** The whole pipeline on a non-empty list: it returns the records assembled
    from the clauses, Step 1's triples and Step 2's embeddings, and logs one
    completion record with its counters. *)
Lemma analyze_clauses_run clause rest (batch_size : Z) s :
  let clauses := clause :: rest in
  let texts := map Clause.text clauses in
  let classifications :=
    map recorded_classification (outcomes texts (classifier s)) in
  let analyses :=
    map assembled
      (zip3 clauses classifications
         (stage2_embeddings texts batch_size (embedding_generator s))) in
  ∃ s',
    analyze_clauses clauses batch_size s = (Ok analyses, s')
    ∧ classifier s' = classifier_after texts (classifier s)
    ∧ confidence_threshold s' = confidence_threshold s
    ∧ List.filter is_batch_complete (trace s') =
        List.filter is_batch_complete (trace s) ++
        [Log INFO (MsgBatchComplete (length analyses)
                     (count_below (confidence_threshold s) analyses)
                     (failures (outcomes texts (classifier s)))
                     (stage2_errors texts batch_size (embedding_generator s)))].
Proof.
  intros clauses texts classifications analyses.
  unfold analyze_clauses.
  unfold try_except at 1. unfold bind at 1. unfold log at 1, emit at 1.
  change (match clauses with [] => ?a | _ :: _ => ?b end) with b.
  clearbody clauses.
  unfold bind at 1. unfold log at 1, emit at 1.
  unfold bind at 1.
  match goal with
  | |- context [classify_loop clauses ?a ?k ?st] =>
      destruct (classify_loop_run clauses a k st) as [evs1 [-> He1]]
  end.
  cbn [classifier embedding_generator confidence_threshold trace app].
  subst analyses classifications. unfold stage2_embeddings, stage2_errors. subst texts.
  run_monad.
  repeat match goal with
  | H : generate_embeddings_batch _ _ _ _ = _ |- _ => rewrite H; simpl
  | |- context [generate_embeddings_batch ?a ?b ?c ?d] =>
      destruct (generate_embeddings_batch a b c d) as [[l|e] g'] eqn:Hb; simpl
  | |- context [embed_loop clauses ?a ?k ?st] =>
      destruct (embed_loop_run clauses a k st) as [evs2 [-> He2]]; simpl
  | |- context [combine_loop ?i ?a ?st] =>
      rewrite (combine_loop_run i a st); simpl
  | |- context [if ?b then _ else _] => destruct b; unfold ret; simpl
  end.
  all: eexists; (split; [reflexivity|]); simpl.
  all: split; [reflexivity|]; split; [reflexivity|].
  all: rewrite !List.filter_app, ?He1, ?He2; simpl; rewrite ?app_nil_r.
  all: reflexivity.
Qed.

Lemma assembled_lookup (clauses : list Clause.t) (classifications : list Prediction)
    (embeddings : list (option (list float))) (i : nat) clause p emb :
  clauses !! i = Some clause →
  classifications !! i = Some p →
  embeddings !! i = Some emb →
  map assembled (zip3 clauses classifications embeddings) !! i
    = Some (assembled (clause, p, emb)).
Proof.
  intros Hc Hp He. rewrite list_lookup_fmap.
  rewrite (zip3_lookup _ _ _ _ _ _ _ Hc Hp He). reflexivity.
Qed.

Lemma stage2_embeddings_length (texts : list string) (batch_size : Z) (g : G) :
  (∀ l, (generate_embeddings_batch texts true batch_size g).1 = Ok l →
        length l = length texts) →
  length (stage2_embeddings texts batch_size g) = length texts.
Proof.
  intros Hal. unfold stage2_embeddings.
  destruct (generate_embeddings_batch texts true batch_size g) as [[l|e] g'].
  - apply Hal. reflexivity.
  - rewrite length_map. apply embedding_outcomes_length.
Qed.

(** C1: provided the batch embedding call, when it returns, returns as many
    entries as it was given texts, batch analysis returns (it does not raise)
    a list as long as the list of clauses, whose i-th record has the id and
    the text of the i-th clause.  This holds for every list of clauses, so
    for every non-empty one. *)
Theorem analyze_clauses_aligned (clauses : list Clause.t) (batch_size : Z) s :
  (∀ l,
     (generate_embeddings_batch (map Clause.text clauses) true batch_size
        (embedding_generator s)).1 = Ok l →
     length l = length (map Clause.text clauses)) →
  ∃ analyses,
    (analyze_clauses clauses batch_size s).1 = Ok analyses
    ∧ length analyses = length clauses
    ∧ ∀ i clause,
        clauses !! i = Some clause →
        ∃ a, analyses !! i = Some a
          ∧ ClauseAnalysis.clause_id a = Clause.clause_id clause
          ∧ ClauseAnalysis.clause_text a = Clause.text clause.
Proof.
  intros Hal. destruct clauses as [|clause0 rest].
  - exists []. split; [reflexivity|]. split; [reflexivity|].
    intros i clause Hi. discriminate.
  - destruct (analyze_clauses_run clause0 rest batch_size s) as (s' & Hrun & _).
    set (clauses := clause0 :: rest) in *.
    rewrite Hrun. cbn [fst].
    pose proof (stage2_embeddings_length _ _ _ Hal) as Hlen.
    rewrite length_map in Hlen.
    assert (Hcl : length (map recorded_classification
                            (outcomes (map Clause.text clauses) (classifier s)))
                  = length clauses)
      by (rewrite length_map, outcomes_length, length_map; reflexivity).
    eexists. split; [reflexivity|]. split.
    + rewrite length_map. apply zip3_length; [exact Hcl | rewrite Hlen; reflexivity].
    + intros i clause Hi.
      pose proof (lookup_lt_Some _ _ _ Hi) as Hlt.
      destruct (lookup_lt_is_Some_2
                  (map recorded_classification
                     (outcomes (map Clause.text clauses) (classifier s))) i)
        as [[[ty cf] al] Hp]; [rewrite Hcl; exact Hlt|].
      destruct (lookup_lt_is_Some_2
                  (stage2_embeddings (map Clause.text clauses) batch_size
                     (embedding_generator s)) i)
        as [emb He]; [rewrite Hlen; exact Hlt|].
      eexists. split; [exact (assembled_lookup _ _ _ _ _ _ _ Hi Hp He)|].
      split; reflexivity.
Qed.

(** C4: when the batch embedding call returns one entry per clause, batch
    analysis of a non-empty list returns one record per clause such that:
    where the classifier's call raised, the record has type "Other",
    confidence 0.5 and alternatives [("Other", 0.5)]; where it returned, the
    record has exactly what it returned; every record has the embedding of
    its position; and the one completion record logged reports as
    classification errors the number of calls that raised, and no embedding
    error. *)
Theorem analyze_clauses_classification_isolated
    (clauses : list Clause.t) (batch_size : Z) s
    (embs : list (option (list float))) (g' : G) :
  clauses ≠ [] →
  generate_embeddings_batch (map Clause.text clauses) true batch_size
    (embedding_generator s) = (Ok embs, g') →
  length embs = length clauses →
  ∃ analyses s' low,
    analyze_clauses clauses batch_size s = (Ok analyses, s')
    ∧ length analyses = length clauses
    ∧ (∀ i r,
         outcomes (map Clause.text clauses) (classifier s) !! i = Some r →
         ∃ a, analyses !! i = Some a
           ∧ embs !! i = Some (ClauseAnalysis.embeddings a)
           ∧ match r with
             | Raise _ =>
                 ClauseAnalysis.clause_type a = "Other"
                 ∧ ClauseAnalysis.confidence_score a = 0.5%float
                 ∧ ClauseAnalysis.alternative_types a = [("Other", 0.5%float)]
             | Ok (clause_type, confidence, alternatives) =>
                 ClauseAnalysis.clause_type a = clause_type
                 ∧ ClauseAnalysis.confidence_score a = confidence
                 ∧ ClauseAnalysis.alternative_types a = alternatives
             end)
    ∧ List.filter is_batch_complete (trace s') =
        List.filter is_batch_complete (trace s) ++
        [Log INFO (MsgBatchComplete (length clauses) low
                     (failures (outcomes (map Clause.text clauses) (classifier s)))
                     0)].
Proof.
  intros Hne Hb Hlen. destruct clauses as [|clause0 rest]; [congruence|clear Hne].
  destruct (analyze_clauses_run clause0 rest batch_size s)
    as (s' & Hrun & _ & _ & Htr).
  set (clauses := clause0 :: rest) in *.
  unfold stage2_embeddings, stage2_errors in *. rewrite Hb in *.
  assert (Hcl : length (map recorded_classification
                          (outcomes (map Clause.text clauses) (classifier s)))
                = length clauses)
    by (rewrite length_map, outcomes_length, length_map; reflexivity).
  assert (Hall : length (map assembled
                   (zip3 clauses
                      (map recorded_classification
                         (outcomes (map Clause.text clauses) (classifier s)))
                      embs)) = length clauses)
    by (rewrite length_map; apply zip3_length; [exact Hcl | rewrite Hlen; reflexivity]).
  eexists _, s', _. split; [exact Hrun|]. split; [exact Hall|]. split.
  - intros i r Hr.
    pose proof (lookup_lt_Some _ _ _ Hr) as Hlt.
    rewrite outcomes_length, length_map in Hlt.
    destruct (lookup_lt_is_Some_2 clauses i) as [clause Hi]; [exact Hlt|].
    destruct (lookup_lt_is_Some_2 embs i) as [emb He]; [rewrite Hlen; exact Hlt|].
    assert (Hp : map recorded_classification
                   (outcomes (map Clause.text clauses) (classifier s)) !! i
                 = Some (recorded_classification r))
      by (rewrite list_lookup_fmap;
          exact (f_equal (fmap recorded_classification) Hr)).
    eexists. split; [exact (assembled_lookup _ _ _ _ _ _ _ Hi Hp He)|].
    destruct r as [[[ty cf] al]|e]; simpl; (split; [exact He|]); repeat split.
  - rewrite Htr, Hall. reflexivity.
Qed.

End Properties.

(** * The properties on scripted collaborators *)

Lemma analyze_clauses_aligned_witness :
  let s := scripted_state one_failure_script healthy_embedder in
  (∀ l,
     (generate_embeddings_batch (map Clause.text five_clauses) true 32
        (embedding_generator s)).1 = Ok l →
     length l = length (map Clause.text five_clauses))
  ∧ ∃ analyses,
      (analyze_clauses five_clauses 32 s).1 = Ok analyses
      ∧ length analyses = length five_clauses
      ∧ ∀ i clause,
          five_clauses !! i = Some clause →
          ∃ a, analyses !! i = Some a
            ∧ ClauseAnalysis.clause_id a = Clause.clause_id clause
            ∧ ClauseAnalysis.clause_text a = Clause.text clause.
Proof.
  intros s.
  assert (Hal : ∀ l,
     (generate_embeddings_batch (map Clause.text five_clauses) true 32
        (embedding_generator s)).1 = Ok l →
     length l = length (map Clause.text five_clauses))
    by (intros l [= <-]; reflexivity).
  split; [exact Hal|].
  exact (analyze_clauses_aligned five_clauses 32 s Hal).
Defined.

Lemma analyze_clause_raises_iff_classifier_raises_witness :
  (analyze_clause clause_nda (scripted_state [] healthy_embedder)).1
    = Raise (InferenceError "Failed to classify clause: no answer scripted"
               [("clause_id", "c1")])
  ∧ ∃ a,
      (analyze_clause clause_nda
         (scripted_state [Ok confidential] degraded_embedder)).1 = Ok a.
Proof.
  split.
  - destruct (analyze_clause_raises_iff_classifier_raises clause_nda
                (scripted_state [] healthy_embedder)) as (_ & He & _).
    destruct (He _ eq_refl) as (cause & Hc & Heq).
    injection Hc as <-. reflexivity.
  - destruct (analyze_clause_raises_iff_classifier_raises clause_nda
                (scripted_state [Ok confidential] degraded_embedder)) as (_ & _ & Hok).
    exact (Hok confidential eq_refl).
Defined.

Lemma analyze_clauses_classification_isolated_witness :
  let s := scripted_state one_failure_script healthy_embedder in
  let embs := map (λ _ : string, Some [1%float]) (map Clause.text five_clauses) in
  five_clauses ≠ []
  ∧ generate_embeddings_batch (map Clause.text five_clauses) true 32
      (embedding_generator s) = (Ok embs, healthy_embedder)
  ∧ length embs = length five_clauses
  ∧ ∃ analyses s' low,
      analyze_clauses five_clauses 32 s = (Ok analyses, s')
      ∧ length analyses = 5
      ∧ (∃ a, analyses !! 2 = Some a
           ∧ ClauseAnalysis.clause_type a = "Other"
           ∧ ClauseAnalysis.confidence_score a = 0.5%float
           ∧ ClauseAnalysis.alternative_types a = [("Other", 0.5%float)])
      ∧ (∃ a, analyses !! 3 = Some a
           ∧ ClauseAnalysis.clause_type a = "Confidentiality"
           ∧ ClauseAnalysis.confidence_score a = 0.92%float)
      ∧ List.filter is_batch_complete (trace s') =
          [Log INFO (MsgBatchComplete 5 low 1 0)].
Proof.
  intros s embs.
  assert (Hne : five_clauses ≠ []) by discriminate.
  assert (Hb : generate_embeddings_batch (map Clause.text five_clauses) true 32
                 (embedding_generator s) = (Ok embs, healthy_embedder))
    by reflexivity.
  assert (Hlen : length embs = length five_clauses) by reflexivity.
  split; [exact Hne|]. split; [exact Hb|]. split; [exact Hlen|].
  destruct (analyze_clauses_classification_isolated five_clauses 32 s embs
              healthy_embedder Hne Hb Hlen)
    as (analyses & s' & low & Hrun & Hl & Hrec & Htr).
  exists analyses, s', low.
  split; [exact Hrun|]. split; [exact Hl|]. split; [|split; [|exact Htr]].
  - destruct (Hrec 2 (Raise (Exception "out of memory")) eq_refl)
      as (a & Ha & _ & Hty & Hcf & Hal).
    exists a. repeat split; assumption.
  - destruct (Hrec 3 (Ok confidential) eq_refl) as (a & Ha & _ & Hty & Hcf & _).
    exists a. repeat split; assumption.
Defined.

Lemma analyze_clause_classified_witness :
  let s := scripted_state [Ok confidential] healthy_embedder in
  predict (Clause.text clause_nda) (classifier s) = (Ok confidential, [])
  ∧ ∃ a, (analyze_clause clause_nda s).1 = Ok a
      ∧ ClauseAnalysis.clause_id a = "c1"
      ∧ ClauseAnalysis.clause_type a = "Confidentiality"
      ∧ ClauseAnalysis.confidence_score a = 0.92%float
      ∧ ClauseAnalysis.alternative_types a
          = [("Confidentiality", 0.92%float); ("NDA", 0.05%float)]
      ∧ ClauseAnalysis.embeddings a = Some [1%float].
Proof.
  intros s.
  assert (Hp : predict (Clause.text clause_nda) (classifier s) = (Ok confidential, []))
    by reflexivity.
  split; [exact Hp|].
  destruct (analyze_clause_classified clause_nda s _ _ _ _ Hp)
    as (a & Ha & Hid & _ & Hty & Hcf & Hal & Hemb & _).
  exists a. repeat split; try assumption.
  exact (Hemb [1%float] eq_refl).
Defined.

Lemma set_confidence_threshold_validates_witness :
  let s := scripted_state [] healthy_embedder in
  (set_confidence_threshold 2%float s).2 = s
  ∧ confidence_threshold (set_confidence_threshold 0.5%float s).2 = 0.5%float.
Proof.
  intros s. split.
  - destruct (set_confidence_threshold_validates 2%float s) as (_ & Hfail & _).
    destruct (Hfail _ eq_refl) as [_ Hs]. exact Hs.
  - destruct (set_confidence_threshold_validates 0.5%float s) as (_ & _ & Hok & _).
    destruct (Hok eq_refl) as [Ht _]. exact Ht.
Defined.

Lemma get_low_confidence_clauses_exact_witness :
  (get_low_confidence_clauses
     [analysis_with 0.9%float; analysis_with 0.5%float;
      analysis_with 0.8%float; analysis_with 0.3%float]
     (scripted_state [] healthy_embedder)).1
  = Ok [analysis_with 0.5%float; analysis_with 0.3%float].
Proof.
  destruct (get_low_confidence_clauses_exact [] (scripted_state [] healthy_embedder))
    as [_ Hex].
  apply Hex; reflexivity.
Defined.

(** The scenario of the specification in which the batch embedding call
    raises and three of four individual calls return: three records carry an
    embedding, one carries none, the classifications are the classifier's. *)
Example batch_embedding_fallback_scenario :
  (analyze_clauses [clause_nda; clause_pay; clause_term; clause_law] 32
     (scripted_state [Ok confidential; Ok confidential; Ok confidential; Ok confidential]
        degraded_embedder)).1
  = Ok [ClauseAnalysis.mk "c1" (Clause.text clause_nda) "Confidentiality" 0.92%float
          (Some [1%float]) confidential.2;
        ClauseAnalysis.mk "c2" (Clause.text clause_pay) "Confidentiality" 0.92%float
          (Some [1%float]) confidential.2;
        ClauseAnalysis.mk "c3" (Clause.text clause_term) "Confidentiality" 0.92%float
          None confidential.2;
        ClauseAnalysis.mk "c4" (Clause.text clause_law) "Confidentiality" 0.92%float
          (Some [1%float]) confidential.2]
  ∧ List.filter is_batch_complete
      (trace (analyze_clauses [clause_nda; clause_pay; clause_term; clause_law] 32
                (scripted_state
                   [Ok confidential; Ok confidential; Ok confidential; Ok confidential]
                   degraded_embedder)).2)
    = [Log INFO (MsgBatchComplete 4 0 0 1)].
Proof. split; reflexivity. Qed.

(** * Further properties of the orchestrator *)

Section Further.

Context {C G : Type} `{!Classifier C} `{!Embedder G}.

Implicit Types (s : State (C:=C) (G:=G)) (clause : Clause.t).

Ltac run_monad :=
  unfold bind, try_except, ret, raise, when, log, emit, recorded, with_threshold,
    new_ClauseAnalysis, get_confidence_threshold, put_confidence_threshold,
    call_predict, call_generate_embedding, call_generate_embeddings_batch in *;
  simpl in *.

(** ** The loops, with everything they record *)

Lemma classify_loop_trace (clauses : list Clause.t) :
  ∀ (acc : list Prediction) (n : nat) s,
    classify_loop clauses acc n s =
      (Ok (acc ++ map recorded_classification
                    (outcomes (map Clause.text clauses) (classifier s)),
           n + failures (outcomes (map Clause.text clauses) (classifier s))),
       {| classifier := classifier_after (map Clause.text clauses) (classifier s);
          embedding_generator := embedding_generator s;
          confidence_threshold := confidence_threshold s;
          trace := trace s
                   ++ classify_events clauses (classifier s) (confidence_threshold s) |}).
Proof.
  induction clauses as [|clause rest IH]; intros acc n s.
  - simpl. unfold ret, failures. simpl.
    rewrite !app_nil_r, Nat.add_0_r. destruct s; reflexivity.
  - simpl. unfold bind at 1. unfold try_except at 1. unfold bind at 1.
    unfold call_predict at 1.
    destruct (predict (Clause.text clause) (classifier s))
      as [[[[ty cf] al]|e] c'] eqn:Hp; simpl.
    + run_monad.
      destruct (PrimFloat.ltb cf (confidence_threshold s)); simpl;
        rewrite IH; simpl; rewrite <- !app_assoc; reflexivity.
    + run_monad. rewrite IH. simpl. rewrite <- !app_assoc. simpl.
      unfold failures. simpl. rewrite Nat.add_succ_r. reflexivity.
Qed.

Lemma embed_loop_trace (clauses : list Clause.t) :
  ∀ (acc : list (option (list float))) (n : nat) s,
    embed_loop clauses acc n s =
      (Ok (acc ++ map recorded_embedding
                    (embedding_outcomes (map Clause.text clauses) (embedding_generator s)),
           n + failures (embedding_outcomes (map Clause.text clauses)
                           (embedding_generator s))),
       {| classifier := classifier s;
          embedding_generator :=
            embedder_after (map Clause.text clauses) (embedding_generator s);
          confidence_threshold := confidence_threshold s;
          trace := trace s ++ embed_events clauses (embedding_generator s) |}).
Proof.
  induction clauses as [|clause rest IH]; intros acc n s.
  - simpl. unfold ret, failures. simpl.
    rewrite !app_nil_r, Nat.add_0_r. destruct s; reflexivity.
  - simpl. unfold bind at 1. unfold try_except at 1. unfold bind at 1.
    unfold call_generate_embedding at 1.
    destruct (generate_embedding (Clause.text clause) (embedding_generator s))
      as [[v|e] g'] eqn:Hg; simpl; run_monad; rewrite IH; simpl;
      rewrite <- !app_assoc; simpl.
    + reflexivity.
    + unfold failures. simpl. rewrite Nat.add_succ_r. reflexivity.
Qed.

(** ** The whole pipeline, with everything it records *)

Lemma analyze_clauses_full clause rest (batch_size : Z) s :
  let clauses := clause :: rest in
  let texts := map Clause.text clauses in
  let ce := failures (outcomes texts (classifier s)) in
  let ee := stage2_errors texts batch_size (embedding_generator s) in
  let analyses :=
    map assembled
      (zip3 clauses (map recorded_classification (outcomes texts (classifier s)))
         (stage2_embeddings texts batch_size (embedding_generator s))) in
  analyze_clauses clauses batch_size s =
    (Ok analyses,
     {| classifier := classifier_after texts (classifier s);
        embedding_generator := stage2_embedder texts batch_size (embedding_generator s);
        confidence_threshold := confidence_threshold s;
        trace :=
          trace s
          ++ [Log INFO (MsgBatchStart (length clauses)); Log INFO MsgStep1]
          ++ classify_events clauses (classifier s) (confidence_threshold s)
          ++ (if 0 <? ce then [Log WARNING (MsgClassificationErrors ce)] else [])
          ++ [Log INFO MsgStep2]
          ++ stage2_events clauses batch_size (embedding_generator s)
          ++ (if 0 <? ee then [Log WARNING (MsgEmbeddingErrors ee)] else [])
          ++ [Log INFO MsgStep3;
              Log INFO (MsgBatchComplete (length analyses)
                          (count_below (confidence_threshold s) analyses) ce ee)]
          ++ (if length clauses <? 2 * (ce + ee)
              then [Log ERROR (MsgHighErrorRate (ce + ee) (length clauses))]
              else []) |}).
Proof.
  intros clauses texts ce ee analyses.
  unfold analyze_clauses.
  unfold try_except at 1. unfold bind at 1. unfold log at 1, emit at 1.
  change (match clauses with [] => ?a | _ :: _ => ?b end) with b.
  clearbody clauses.
  unfold bind at 1. unfold log at 1, emit at 1.
  unfold bind at 1.
  rewrite classify_loop_trace.
  cbn [classifier embedding_generator confidence_threshold trace app].
  subst analyses ce ee.
  unfold stage2_embeddings, stage2_errors, stage2_embedder, stage2_events. subst texts.
  run_monad.
  repeat match goal with
  | H : generate_embeddings_batch _ _ _ _ = _ |- _ => rewrite H; simpl
  | |- context [generate_embeddings_batch ?a ?b ?c ?d] =>
      destruct (generate_embeddings_batch a b c d) as [[l|e] g'] eqn:Hb; simpl
  | |- context [embed_loop clauses ?a ?k ?st] =>
      rewrite (embed_loop_trace clauses a k st); simpl
  | |- context [combine_loop ?i ?a ?st] =>
      rewrite (combine_loop_run i a st); simpl
  | |- context [if ?b then _ else _] => destruct b; unfold ret; simpl
  end.
  all: rewrite <- ?app_assoc; simpl; rewrite ?app_nil_r; try reflexivity.
Qed.

(** ** Triage and summary *)

Lemma filter_filter_comm {A} (f g : A → bool) (l : list A) :
  List.filter f (List.filter g l) = List.filter g (List.filter f l).
Proof.
  induction l as [|x l IH]; simpl; [reflexivity|].
  destruct (f x) eqn:Hf, (g x) eqn:Hg; simpl; rewrite ?Hf, ?Hg, IH; reflexivity.
Qed.

Lemma filter_idempotent {A} (f : A → bool) (l : list A) :
  List.filter f (List.filter f l) = List.filter f l.
Proof.
  induction l as [|x l IH]; simpl; [reflexivity|].
  destruct (f x) eqn:Hf; simpl; rewrite ?Hf, IH; reflexivity.
Qed.

Lemma get_clauses_by_type_run (analyses : list ClauseAnalysis.t) (ty : string) s :
  get_clauses_by_type analyses ty s =
    (Ok (List.filter (λ a, bool_decide (ClauseAnalysis.clause_type a = ty)) analyses),
     recorded s [Log INFO (MsgFoundOfType (occurrences ty analyses) ty)]).
Proof. reflexivity. Qed.

(** X1: the filter by type never raises and returns the records of the given
    type, each as often as it occurs and in the original order: a sublist of
    the input that holds exactly the records of that type.  It calls no
    collaborator and changes nothing but the log. *)
Theorem get_clauses_by_type_exact (analyses : list ClauseAnalysis.t) (ty : string) s :
  ∃ filtered,
    (get_clauses_by_type analyses ty s).1 = Ok filtered
    ∧ sublist filtered analyses
    ∧ (∀ a, a ∈ filtered ↔ a ∈ analyses ∧ ClauseAnalysis.clause_type a = ty)
    ∧ length filtered = occurrences ty analyses
    ∧ (get_clauses_by_type analyses ty s).2
        = recorded s [Log INFO (MsgFoundOfType (length filtered) ty)].
Proof.
  rewrite get_clauses_by_type_run. simpl. eexists. split; [reflexivity|].
  split; [apply filter_sublist|]. split; [|split; reflexivity].
  intros a. rewrite !list_elem_of_In, List.filter_In, bool_decide_eq_true.
  reflexivity.
Qed.

(** X2: the two filters compose as filters should.  Filtering the output of
    the low-confidence filter again, under the same threshold, returns it
    unchanged, and filtering by type and by low confidence gives the same
    list in either order. *)
Theorem triage_filters_compose (analyses : list ClauseAnalysis.t) (ty : string) s s' :
  confidence_threshold s' = confidence_threshold s →
  ∀ low typed,
    (get_low_confidence_clauses analyses s).1 = Ok low →
    (get_clauses_by_type analyses ty s).1 = Ok typed →
    (get_low_confidence_clauses low s').1 = Ok low
    ∧ (get_clauses_by_type typed ty s').1 = Ok typed
    ∧ (get_clauses_by_type low ty s').1 = (get_low_confidence_clauses typed s').1.
Proof.
  intros Ht low typed.
  rewrite !get_low_confidence_clauses_run, !get_clauses_by_type_run. simpl.
  intros [= <-] [= <-]. rewrite Ht.
  rewrite !filter_idempotent, filter_filter_comm. repeat split.
Qed.

Lemma sum_counts_insert (m : gmap string nat) (k : string) (n : nat) :
  m !! k = None → sum_counts (<[k := n]> m) = n + sum_counts m.
Proof.
  intros Hk. unfold sum_counts.
  rewrite map_fold_insert_L; [reflexivity| |exact Hk].
  intros j1 j2 z1 z2 y _ _ _. lia.
Qed.

Lemma sum_counts_increment (m : gmap string nat) (k : string) :
  sum_counts (<[k := default 0 (m !! k) + 1]> m) = S (sum_counts m).
Proof.
  destruct (m !! k) as [d|] eqn:Hk; simpl.
  - rewrite <- (insert_delete_eq m k (d + 1)).
    rewrite <- (insert_id m k d Hk) at 2.
    rewrite <- (insert_delete_eq m k d).
    rewrite !sum_counts_insert by apply lookup_delete_eq. lia.
  - rewrite sum_counts_insert by exact Hk. reflexivity.
Qed.

Lemma sum_counts_count_types (analyses : list ClauseAnalysis.t) :
  ∀ m : gmap string nat,
    sum_counts (count_types analyses m) = sum_counts m + length analyses.
Proof.
  induction analyses as [|a analyses IH]; intros m; simpl.
  - lia.
  - rewrite IH, sum_counts_increment. lia.
Qed.

Lemma occurrences_positive (ty : string) (analyses : list ClauseAnalysis.t) :
  0 < occurrences ty analyses ↔
  ∃ a, a ∈ analyses ∧ ClauseAnalysis.clause_type a = ty.
Proof.
  unfold occurrences. induction analyses as [|a analyses IH]; simpl.
  - split; [lia|]. intros (a & Ha & _). inversion Ha.
  - destruct (bool_decide_reflect (ClauseAnalysis.clause_type a = ty)) as [Heq|Hne]; simpl.
    + split; [|lia]. intros _. exists a. split; [left|exact Heq].
    + rewrite IH. split.
      * intros (b & Hb & Hty). exists b. split; [right; exact Hb|exact Hty].
      * intros (b & Hb & Hty). inversion Hb; subst; [contradiction|]. eauto.
Qed.

Lemma count_below_le (threshold : float) (analyses : list ClauseAnalysis.t) :
  count_below threshold analyses ≤ length analyses.
Proof.
  unfold count_below. induction analyses as [|a analyses IH]; simpl; [lia|].
  destruct (below threshold a); simpl; lia.
Qed.

Section SummaryFurther.

Context `{!FloatBuiltins}.

Lemma get_analysis_summary_fields (analyses : list ClauseAnalysis.t) s summary :
  (get_analysis_summary analyses s).1 = Ok summary →
  total_clauses summary = length analyses
  ∧ low_confidence_count summary = count_below (confidence_threshold s) analyses
  ∧ clause_type_distribution summary = count_types analyses ∅.
Proof.
  destruct analyses as [|a analyses].
  - intros [= <-]. repeat split.
  - unfold get_analysis_summary. run_monad. intros [= <-]. repeat split.
Qed.

(** X3: in every summary the counts of the type dictionary add up to the
    total, the low-confidence count does not exceed the total, and the keys
    of the dictionary are exactly the clause types that occur. *)
Theorem get_analysis_summary_consistent (analyses : list ClauseAnalysis.t) s summary :
  (get_analysis_summary analyses s).1 = Ok summary →
  sum_counts (clause_type_distribution summary) = total_clauses summary
  ∧ low_confidence_count summary ≤ total_clauses summary
  ∧ ∀ ty, ty ∈ dom (clause_type_distribution summary) ↔
          ∃ a, a ∈ analyses ∧ ClauseAnalysis.clause_type a = ty.
Proof.
  intros Hs. destruct (get_analysis_summary_fields _ _ _ Hs) as (-> & -> & ->).
  split; [|split].
  - rewrite sum_counts_count_types. unfold sum_counts. rewrite map_fold_empty. lia.
  - apply count_below_le.
  - intros ty. rewrite elem_of_dom, count_types_lookup, lookup_empty.
    rewrite <- occurrences_positive.
    destruct (occurrences ty analyses) as [|k]; simpl.
    + split; [intros [x Hx]; discriminate|lia].
    + split; [lia|]. intros _. eexists. reflexivity.
Qed.

(** X4: the summary agrees with the filters.  Its low-confidence count is
    the length of what the low-confidence filter returns in the same state,
    and the count it gives a clause type (none meaning zero) is the length
    of what the filter by that type returns. *)
Theorem get_analysis_summary_matches_filters (analyses : list ClauseAnalysis.t) s summary :
  (get_analysis_summary analyses s).1 = Ok summary →
  (∀ low, (get_low_confidence_clauses analyses s).1 = Ok low →
          low_confidence_count summary = length low)
  ∧ (∀ ty typed, (get_clauses_by_type analyses ty s).1 = Ok typed →
                 default 0 (clause_type_distribution summary !! ty) = length typed).
Proof.
  intros Hs. destruct (get_analysis_summary_fields _ _ _ Hs) as (_ & -> & ->).
  split.
  - intros low. rewrite get_low_confidence_clauses_run. intros [= <-]. reflexivity.
  - intros ty typed. rewrite get_clauses_by_type_run. intros [= <-].
    rewrite count_types_lookup, lookup_empty.
    fold (occurrences ty analyses).
    destruct (occurrences ty analyses); reflexivity.
Qed.

End SummaryFurther.

(** ** Single-clause analysis: which collaborator is called *)

(** X5: single-clause analysis calls the classifier once.  When that call
    raises, the embedding generator is not called and stays as it was; when
    it returns, the embedding generator is called once, after the classifier,
    on the same text. *)
Theorem analyze_clause_calls clause s :
  let r := analyze_clause clause s in
  let p := predict (Clause.text clause) (classifier s) in
  let g := generate_embedding (Clause.text clause) (embedding_generator s) in
  classifier r.2 = p.2
  ∧ (raised p.1 = true →
       embedding_generator r.2 = embedding_generator s
       ∧ List.filter is_call (trace r.2)
           = List.filter is_call (trace s) ++ [CallPredict (Clause.text clause)])
  ∧ (raised p.1 = false →
       embedding_generator r.2 = g.2
       ∧ List.filter is_call (trace r.2)
           = List.filter is_call (trace s)
             ++ [CallPredict (Clause.text clause);
                 CallGenerateEmbedding (Clause.text clause)]).
Proof.
  unfold analyze_clause, _create_fallback_analysis. run_monad.
  destruct (predict _ _) as [[[[ty cf] al]|cause] c']; simpl.
  - destruct (generate_embedding _ _) as [[v|e] g']; simpl;
      destruct (PrimFloat.ltb cf (confidence_threshold s)); simpl;
      (split; [reflexivity|]); (split; [discriminate|]); intros _;
      (split; [reflexivity|]);
      rewrite ?List.filter_app; simpl; rewrite ?app_nil_r, <- ?app_assoc; reflexivity.
  - split; [reflexivity|]. split; [|discriminate]. intros _.
    split; [reflexivity|].
    rewrite ?List.filter_app; simpl; rewrite ?app_nil_r; reflexivity.
Qed.

(** ** Batch analysis without any assumption on the collaborators *)

Lemma zip3_length_min {X Y W} (xs : list X) :
  ∀ (ys : list Y) (zs : list W),
    length (zip3 xs ys zs) = length xs `min` (length ys `min` length zs).
Proof.
  induction xs as [|x xs IH]; intros [|y ys] [|z zs]; simpl; try reflexivity.
  rewrite IH. reflexivity.
Qed.

Lemma zip3_lookup_inv {X Y W} (xs : list X) :
  ∀ (ys : list Y) (zs : list W) i x y z,
    zip3 xs ys zs !! i = Some (x, y, z) →
    xs !! i = Some x ∧ ys !! i = Some y ∧ zs !! i = Some z.
Proof.
  induction xs as [|x0 xs IH]; intros [|y0 ys] [|z0 zs] [|i] x y z Hz;
    simpl in *; try discriminate.
  - injection Hz as -> -> ->. repeat split.
  - eapply IH. exact Hz.
Qed.

(** What a record of the batch result is made of. *)
Lemma analyses_lookup_inv (clauses : list Clause.t) (classifications : list Prediction)
    (embeddings : list (option (list float))) (i : nat) (a : ClauseAnalysis.t) :
  map assembled (zip3 clauses classifications embeddings) !! i = Some a →
  ∃ clause p emb,
    clauses !! i = Some clause
    ∧ classifications !! i = Some p
    ∧ embeddings !! i = Some emb
    ∧ a = assembled (clause, p, emb).
Proof.
  rewrite list_lookup_fmap. intros Ha.
  destruct (zip3 clauses classifications embeddings !! i) as [[[clause p] emb]|] eqn:Hz;
    [|discriminate].
  injection Ha as <-.
  destruct (zip3_lookup_inv _ _ _ _ _ _ _ Hz) as (Hc & Hp & He).
  exists clause, p, emb. repeat split; assumption.
Qed.

Lemma analyze_clauses_result (clauses : list Clause.t) (batch_size : Z) s :
  (analyze_clauses clauses batch_size s).1 =
    Ok (map assembled
          (zip3 clauses
             (map recorded_classification
                (outcomes (map Clause.text clauses) (classifier s)))
             (stage2_embeddings (map Clause.text clauses) batch_size
                (embedding_generator s)))).
Proof.
  destruct clauses as [|clause rest].
  - reflexivity.
  - rewrite analyze_clauses_full. reflexivity.
Qed.

Lemma recorded_classifications_length (clauses : list Clause.t) (c : C) :
  length (map recorded_classification (outcomes (map Clause.text clauses) c))
    = length clauses.
Proof. rewrite length_map, outcomes_length, length_map. reflexivity. Qed.

(** X6: batch analysis never raises, whatever the collaborators do, and
    never invents a record: the i-th record returned has the id and the text
    of the i-th clause.  But it can drop clauses: when the batch embedding
    call returns a list, the result is as long as the shorter of that list
    and the list of clauses; when the batch call raises, there is one record
    per clause. *)
Theorem analyze_clauses_never_raises (clauses : list Clause.t) (batch_size : Z) s :
  ∃ analyses,
    (analyze_clauses clauses batch_size s).1 = Ok analyses
    ∧ (∀ i a, analyses !! i = Some a →
         ∃ clause, clauses !! i = Some clause
           ∧ ClauseAnalysis.clause_id a = Clause.clause_id clause
           ∧ ClauseAnalysis.clause_text a = Clause.text clause)
    ∧ (∀ l g',
         generate_embeddings_batch (map Clause.text clauses) true batch_size
           (embedding_generator s) = (Ok l, g') →
         length analyses = length clauses `min` length l)
    ∧ (∀ e g',
         generate_embeddings_batch (map Clause.text clauses) true batch_size
           (embedding_generator s) = (Raise e, g') →
         length analyses = length clauses).
Proof.
  eexists. split; [apply analyze_clauses_result|].
  split; [|split].
  - intros i a Ha.
    destruct (analyses_lookup_inv _ _ _ _ _ Ha)
      as (clause & [[ty cf] al] & emb & Hc & _ & _ & ->).
    exists clause. repeat split. exact Hc.
  - intros l g' Hb. rewrite length_map, zip3_length_min.
    rewrite recorded_classifications_length.
    unfold stage2_embeddings. rewrite Hb. lia.
  - intros e g' Hb. rewrite length_map, zip3_length_min.
    rewrite recorded_classifications_length.
    unfold stage2_embeddings. rewrite Hb.
    rewrite length_map, embedding_outcomes_length, length_map. lia.
Qed.

(** X7: when the batch embedding call raises, batch analysis asks for each
    clause's embedding individually, in order, from the generator as the
    failed call left it.  Every clause gets a record; its embedding is the
    vector of its individual call, or none when that call raised; its
    classification is what Step 1 recorded; and the completion record
    reports as embedding errors the number of individual calls that raised. *)
Theorem analyze_clauses_embedding_fallback
    (clauses : list Clause.t) (batch_size : Z) s (e : exn) (g' : G) :
  clauses ≠ [] →
  generate_embeddings_batch (map Clause.text clauses) true batch_size
    (embedding_generator s) = (Raise e, g') →
  ∃ analyses s' low,
    analyze_clauses clauses batch_size s = (Ok analyses, s')
    ∧ length analyses = length clauses
    ∧ (∀ i r,
         embedding_outcomes (map Clause.text clauses) g' !! i = Some r →
         ∃ a, analyses !! i = Some a
           ∧ ClauseAnalysis.embeddings a
               = match r with Ok v => Some v | Raise _ => None end)
    ∧ (∀ i r,
         outcomes (map Clause.text clauses) (classifier s) !! i = Some r →
         ∃ a, analyses !! i = Some a
           ∧ (ClauseAnalysis.clause_type a, ClauseAnalysis.confidence_score a,
              ClauseAnalysis.alternative_types a) = recorded_classification r)
    ∧ embedding_generator s' = embedder_after (map Clause.text clauses) g'
    ∧ List.filter is_batch_complete (trace s') =
        List.filter is_batch_complete (trace s) ++
        [Log INFO
           (MsgBatchComplete (length clauses) low
              (failures (outcomes (map Clause.text clauses) (classifier s)))
              (failures (embedding_outcomes (map Clause.text clauses) g')))].
Proof.
  intros Hne Hb. destruct clauses as [|clause0 rest]; [congruence|clear Hne].
  destruct (analyze_clauses_run clause0 rest batch_size s)
    as (s' & Hrun & _ & _ & Htr).
  assert (Hg : embedding_generator s' =
               stage2_embedder (map Clause.text (clause0 :: rest)) batch_size
                 (embedding_generator s)).
  { pose proof (analyze_clauses_full clause0 rest batch_size s) as Hfull.
    cbv zeta in Hfull. rewrite Hrun in Hfull.
    exact (f_equal (λ r, embedding_generator r.2) Hfull). }
  set (clauses := clause0 :: rest) in *.
  unfold stage2_embeddings, stage2_errors, stage2_embedder in *. rewrite Hb in *.
  set (cls := map recorded_classification
                (outcomes (map Clause.text clauses) (classifier s))) in *.
  set (embs := map recorded_embedding
                 (embedding_outcomes (map Clause.text clauses) g')) in *.
  assert (Hcl : length cls = length clauses)
    by apply recorded_classifications_length.
  assert (Hel : length embs = length clauses)
    by (unfold embs; rewrite length_map, embedding_outcomes_length, length_map;
        reflexivity).
  assert (Hall : length (map assembled (zip3 clauses cls embs)) = length clauses)
    by (rewrite length_map; apply zip3_length; [exact Hcl | rewrite Hel; reflexivity]).
  eexists _, s', _. split; [exact Hrun|]. split; [exact Hall|].
  split; [|split; [|split]].
  - intros i r Hr.
    pose proof (lookup_lt_Some _ _ _ Hr) as Hlt.
    rewrite embedding_outcomes_length, length_map in Hlt.
    destruct (lookup_lt_is_Some_2 clauses i) as [clause Hi]; [exact Hlt|].
    destruct (lookup_lt_is_Some_2 cls i) as [[[ty cf] al] Hp];
      [rewrite Hcl; exact Hlt|].
    assert (He : embs !! i = Some (recorded_embedding r))
      by (unfold embs; rewrite list_lookup_fmap;
          exact (f_equal (fmap recorded_embedding) Hr)).
    eexists. split; [exact (assembled_lookup _ _ _ _ _ _ _ Hi Hp He)|].
    destruct r; reflexivity.
  - intros i r Hr.
    pose proof (lookup_lt_Some _ _ _ Hr) as Hlt.
    rewrite outcomes_length, length_map in Hlt.
    destruct (lookup_lt_is_Some_2 clauses i) as [clause Hi]; [exact Hlt|].
    destruct (lookup_lt_is_Some_2 embs i) as [emb He]; [rewrite Hel; exact Hlt|].
    assert (Hp : cls !! i = Some (recorded_classification r))
      by (unfold cls; rewrite list_lookup_fmap;
          exact (f_equal (fmap recorded_classification) Hr)).
    eexists. split; [exact (assembled_lookup _ _ _ _ _ _ _ Hi Hp He)|].
    simpl. destruct (recorded_classification r) as [[ty cf] al]. reflexivity.
  - exact Hg.
  - rewrite Htr, Hall. reflexivity.
Qed.

(** ** What batch analysis records *)

Lemma classify_events_calls (clauses : list Clause.t) :
  ∀ (c : C) (threshold : float),
    List.filter is_call (classify_events clauses c threshold)
      = map CallPredict (map Clause.text clauses).
Proof.
  induction clauses as [|clause rest IH]; intros c threshold; simpl; [reflexivity|].
  rewrite List.filter_app, IH.
  destruct (predict (Clause.text clause) c).1 as [[[ty cf] al]|e]; simpl;
    [destruct (PrimFloat.ltb cf threshold)|]; reflexivity.
Qed.

Lemma embed_events_calls (clauses : list Clause.t) :
  ∀ g : G,
    List.filter is_call (embed_events clauses g)
      = map CallGenerateEmbedding (map Clause.text clauses).
Proof.
  induction clauses as [|clause rest IH]; intros g; simpl; [reflexivity|].
  rewrite List.filter_app, IH.
  destruct (generate_embedding (Clause.text clause) g).1; reflexivity.
Qed.

Lemma classify_events_no_high_error_rate (clauses : list Clause.t) :
  ∀ (c : C) (threshold : float),
    List.filter is_high_error_rate (classify_events clauses c threshold) = [].
Proof.
  induction clauses as [|clause rest IH]; intros c threshold; simpl; [reflexivity|].
  rewrite List.filter_app, IH.
  destruct (predict (Clause.text clause) c).1 as [[[ty cf] al]|e]; simpl;
    [destruct (PrimFloat.ltb cf threshold)|]; reflexivity.
Qed.

Lemma embed_events_no_high_error_rate (clauses : list Clause.t) :
  ∀ g : G, List.filter is_high_error_rate (embed_events clauses g) = [].
Proof.
  induction clauses as [|clause rest IH]; intros g; simpl; [reflexivity|].
  rewrite List.filter_app, IH.
  destruct (generate_embedding (Clause.text clause) g).1; reflexivity.
Qed.

Ltac split_ifs :=
  repeat match goal with
  | |- context [if ?b then _ else _] => destruct b; simpl
  end.

(** X8: on a non-empty list, batch analysis calls the classifier once per
    clause, in order, then makes one batch embedding call with all texts and
    caching on; only when that call raises does it call the embedding
    generator per clause, once each and in order.  It makes no other call. *)
Theorem analyze_clauses_calls (clauses : list Clause.t) (batch_size : Z) s :
  clauses ≠ [] →
  let texts := map Clause.text clauses in
  List.filter is_call (trace (analyze_clauses clauses batch_size s).2) =
    List.filter is_call (trace s)
    ++ map CallPredict texts
    ++ [CallGenerateEmbeddingsBatch texts true batch_size]
    ++ (if raised (generate_embeddings_batch texts true batch_size
                     (embedding_generator s)).1
        then map CallGenerateEmbedding texts
        else []).
Proof.
  intros Hne. destruct clauses as [|clause0 rest]; [congruence|clear Hne].
  pose proof (analyze_clauses_full clause0 rest batch_size s) as Hfull.
  cbv zeta in Hfull |- *.
  set (clauses := clause0 :: rest) in *. clearbody clauses.
  rewrite Hfull. cbn [snd trace].
  rewrite !List.filter_app, classify_events_calls. unfold stage2_events.
  destruct (generate_embeddings_batch _ _ _ _) as [[l|e] g']; simpl;
    rewrite ?embed_events_calls; split_ifs; rewrite ?app_nil_r; reflexivity.
Qed.

(** X9: the high-error-rate record is advisory.  On a non-empty list it is
    logged, once, exactly when the classification errors and the embedding
    errors together are more than half the number of clauses; the list
    returned is the same either way. *)
Theorem analyze_clauses_high_error_rate (clauses : list Clause.t) (batch_size : Z) s :
  clauses ≠ [] →
  let texts := map Clause.text clauses in
  let total_errors :=
    failures (outcomes texts (classifier s))
    + stage2_errors texts batch_size (embedding_generator s) in
  List.filter is_high_error_rate (trace (analyze_clauses clauses batch_size s).2) =
    List.filter is_high_error_rate (trace s)
    ++ (if length clauses <? 2 * total_errors
        then [Log ERROR (MsgHighErrorRate total_errors (length clauses))]
        else []).
Proof.
  intros Hne. destruct clauses as [|clause0 rest]; [congruence|clear Hne].
  pose proof (analyze_clauses_full clause0 rest batch_size s) as Hfull.
  cbv zeta in Hfull |- *.
  set (clauses := clause0 :: rest) in *. clearbody clauses.
  rewrite Hfull. cbn [snd trace].
  rewrite !List.filter_app, classify_events_no_high_error_rate.
  unfold stage2_events.
  destruct (generate_embeddings_batch _ _ _ _) as [[l|e] g'] eqn:Hb; simpl;
    rewrite ?embed_events_no_high_error_rate;
    destruct (length clauses <? _); split_ifs; reflexivity.
Qed.

Lemma analyze_clauses_threshold (clauses : list Clause.t) (batch_size : Z) s :
  confidence_threshold (analyze_clauses clauses batch_size s).2
    = confidence_threshold s.
Proof.
  destruct clauses as [|clause rest].
  - reflexivity.
  - rewrite analyze_clauses_full. reflexivity.
Qed.

(** X10: no analysis and no filter changes the threshold: after
    single-clause analysis, after batch analysis and after either filter the
    threshold is what it was, whatever the collaborators did. *)
Theorem threshold_preserved clause (clauses : list Clause.t) (batch_size : Z)
    (analyses : list ClauseAnalysis.t) (ty : string) s :
  confidence_threshold (analyze_clause clause s).2 = confidence_threshold s
  ∧ confidence_threshold (analyze_clauses clauses batch_size s).2
      = confidence_threshold s
  ∧ confidence_threshold (get_low_confidence_clauses analyses s).2
      = confidence_threshold s
  ∧ confidence_threshold (get_clauses_by_type analyses ty s).2
      = confidence_threshold s.
Proof.
  split; [|split; [apply analyze_clauses_threshold|split; reflexivity]].
  unfold analyze_clause, _create_fallback_analysis. run_monad.
  destruct (predict _ _) as [[[[ty' cf] al]|cause] c']; simpl; [|reflexivity].
  destruct (generate_embedding _ _) as [[v|e] g']; simpl;
    destruct (PrimFloat.ltb cf (confidence_threshold s)); reflexivity.
Qed.

(** X11: the two entry points treat a classifier failure differently.  When
    the classifier raises on a clause, single-clause analysis raises an
    InferenceError, while batch analysis of that clause alone (the batch
    embedding call, if it returns, returning one entry) returns one record,
    with the clause's id, type "Other" and confidence 0.5. *)
Theorem classifier_failure_single_and_batch clause (batch_size : Z) s (e : exn) (c' : C) :
  predict (Clause.text clause) (classifier s) = (Raise e, c') →
  (∀ l,
     (generate_embeddings_batch [Clause.text clause] true batch_size
        (embedding_generator s)).1 = Ok l →
     length l = 1) →
  (∃ message details,
     (analyze_clause clause s).1 = Raise (InferenceError message details))
  ∧ ∃ a,
      (analyze_clauses [clause] batch_size s).1 = Ok [a]
      ∧ ClauseAnalysis.clause_id a = Clause.clause_id clause
      ∧ ClauseAnalysis.clause_type a = "Other"
      ∧ ClauseAnalysis.confidence_score a = 0.5%float
      ∧ ClauseAnalysis.alternative_types a = [("Other", 0.5%float)].
Proof.
  intros Hp Hal. split.
  - rewrite (analyze_clause_classifier_raises _ _ _ _ Hp). eauto.
  - rewrite analyze_clauses_result.
    pose proof (stage2_embeddings_length [Clause.text clause] batch_size
                  (embedding_generator s) Hal) as Hlen.
    simpl map at 2. simpl outcomes. rewrite Hp. simpl.
    destruct (stage2_embeddings [Clause.text clause] batch_size (embedding_generator s))
      as [|emb [|emb' embs]]; simpl in Hlen; try discriminate.
    simpl. eexists. split; [reflexivity|]. repeat split.
Qed.

(** X12: under a threshold above 0.5, as the default 0.75 is, the clauses
    whose classification failed in a batch are found by the low-confidence
    filter applied to the result of that batch. *)
Theorem failed_classifications_are_low_confidence
    (clauses : list Clause.t) (batch_size : Z) s (analyses : list ClauseAnalysis.t) :
  PrimFloat.ltb 0.5 (confidence_threshold s) = true →
  (analyze_clauses clauses batch_size s).1 = Ok analyses →
  ∀ i e a,
    outcomes (map Clause.text clauses) (classifier s) !! i = Some (Raise e) →
    analyses !! i = Some a →
    ∃ low,
      (get_low_confidence_clauses analyses (analyze_clauses clauses batch_size s).2).1
        = Ok low
      ∧ a ∈ low.
Proof.
  intros Ht Hres i e a Hr Ha.
  rewrite analyze_clauses_result in Hres. injection Hres as <-.
  destruct (analyses_lookup_inv _ _ _ _ _ Ha) as (clause & p & emb & Hc & Hp & He & ->).
  rewrite list_lookup_fmap in Hp.
  pose proof (f_equal (fmap recorded_classification) Hr) as Hr'.
  simpl in Hr'. rewrite Hr' in Hp. injection Hp as <-.
  rewrite get_low_confidence_clauses_run, analyze_clauses_threshold. simpl.
  eexists. split; [reflexivity|].
  rewrite list_elem_of_In, List.filter_In. split.
  - apply list_elem_of_In. eapply list_elem_of_lookup_2. exact Ha.
  - unfold below. simpl. exact Ht.
Qed.

Lemma classify_events_low_confidence (clauses : list Clause.t) :
  ∀ (c : C) (threshold : float),
    length (List.filter is_low_confidence_warning (classify_events clauses c threshold))
      = length (List.filter (low_confidence_outcome threshold)
                  (outcomes (map Clause.text clauses) c)).
Proof.
  induction clauses as [|clause rest IH]; intros c threshold; simpl; [reflexivity|].
  rewrite List.filter_app, length_app, IH.
  destruct (predict (Clause.text clause) c).1 as [[[ty cf] al]|e]; simpl;
    [destruct (PrimFloat.ltb cf threshold)|]; reflexivity.
Qed.

Lemma embed_events_no_low_confidence (clauses : list Clause.t) :
  ∀ g : G, List.filter is_low_confidence_warning (embed_events clauses g) = [].
Proof.
  induction clauses as [|clause rest IH]; intros g; simpl; [reflexivity|].
  rewrite List.filter_app, IH.
  destruct (generate_embedding (Clause.text clause) g).1; reflexivity.
Qed.

(** X13: on a non-empty list, batch analysis logs one low-confidence warning
    for each call of the classifier that returned with a confidence below
    the threshold, and none for a call that raised: a low confidence is
    warned about, a failure is counted as an error, never both. *)
Theorem analyze_clauses_low_confidence_warnings
    (clauses : list Clause.t) (batch_size : Z) s :
  clauses ≠ [] →
  length (List.filter is_low_confidence_warning
            (trace (analyze_clauses clauses batch_size s).2))
  = length (List.filter is_low_confidence_warning (trace s))
    + length (List.filter (low_confidence_outcome (confidence_threshold s))
                (outcomes (map Clause.text clauses) (classifier s))).
Proof.
  intros Hne. destruct clauses as [|clause0 rest]; [congruence|clear Hne].
  pose proof (analyze_clauses_full clause0 rest batch_size s) as Hfull.
  cbv zeta in Hfull.
  set (clauses := clause0 :: rest) in *. clearbody clauses.
  rewrite Hfull. cbn [snd trace].
  rewrite !List.filter_app, !length_app, classify_events_low_confidence.
  unfold stage2_events.
  destruct (generate_embeddings_batch _ _ _ _) as [[l|e] g'] eqn:Hb; simpl;
    rewrite ?embed_events_no_low_confidence;
    destruct (length clauses <? _); split_ifs; simpl; lia.
Qed.

Lemma failures_le_others (clauses : list Clause.t) :
  ∀ (rs : list (result Prediction)) (embs : list (option (list float))),
    length rs = length clauses → length embs = length clauses →
    failures rs
      ≤ occurrences "Other"
          (map assembled (zip3 clauses (map recorded_classification rs) embs)).
Proof.
  unfold failures, occurrences.
  induction clauses as [|clause rest IH]; intros [|r rs] [|emb embs] Hr He;
    simpl in *; try lia.
  specialize (IH rs embs ltac:(lia) ltac:(lia)).
  destruct r as [[[ty cf] al]|e]; simpl.
  - destruct (bool_decide (ty = "Other")); simpl; lia.
  - lia.
Qed.

Section SummaryOfBatch.

Context `{!FloatBuiltins}.

(** X14: degradation shows in the summary.  When the batch embedding call,
    if it returns, returns one entry per clause, the summary of a batch
    result counts as many clauses as were given, and counts under "Other" at
    least as many as classifications failed. *)
Theorem summary_of_batch_counts_failures
    (clauses : list Clause.t) (batch_size : Z) s s'
    (analyses : list ClauseAnalysis.t) (summary : Summary) :
  (∀ l,
     (generate_embeddings_batch (map Clause.text clauses) true batch_size
        (embedding_generator s)).1 = Ok l →
     length l = length (map Clause.text clauses)) →
  (analyze_clauses clauses batch_size s).1 = Ok analyses →
  (get_analysis_summary analyses s').1 = Ok summary →
  total_clauses summary = length clauses
  ∧ failures (outcomes (map Clause.text clauses) (classifier s))
      ≤ default 0 (clause_type_distribution summary !! "Other").
Proof.
  intros Hal Hres Hs.
  rewrite analyze_clauses_result in Hres. injection Hres as <-.
  destruct (get_analysis_summary_fields _ _ _ Hs) as (-> & _ & ->).
  pose proof (stage2_embeddings_length _ _ _ Hal) as Hlen.
  rewrite length_map in Hlen.
  split.
  - rewrite length_map. apply zip3_length.
    + apply recorded_classifications_length.
    + rewrite Hlen. reflexivity.
  - rewrite count_types_lookup, lookup_empty.
    pose proof (failures_le_others clauses
                  (outcomes (map Clause.text clauses) (classifier s))
                  (stage2_embeddings (map Clause.text clauses) batch_size
                     (embedding_generator s))) as Hle.
    rewrite outcomes_length, length_map in Hle.
    specialize (Hle eq_refl Hlen).
    destruct (occurrences "Other" _) eqn:Hocc; simpl in *; lia.
Qed.

End SummaryOfBatch.

End Further.

(** * The further properties on scripted collaborators *)

Lemma triage_filters_compose_witness :
  let s := scripted_state [] healthy_embedder in
  let low := [analysis_with 0.5%float; analysis_with 0.3%float] in
  confidence_threshold s = confidence_threshold s
  ∧ (get_low_confidence_clauses four_analyses s).1 = Ok low
  ∧ (get_clauses_by_type four_analyses "Other" s).1 = Ok four_analyses
  ∧ (get_low_confidence_clauses low s).1 = Ok low
  ∧ (get_clauses_by_type four_analyses "Other" s).1 = Ok four_analyses
  ∧ (get_clauses_by_type low "Other" s).1
      = (get_low_confidence_clauses four_analyses s).1.
Proof.
  intros s low.
  split; [reflexivity|]. split; [reflexivity|]. split; [reflexivity|].
  exact (triage_filters_compose four_analyses "Other" s s eq_refl low four_analyses
           eq_refl eq_refl).
Defined.

Lemma get_analysis_summary_consistent_witness :
  let s := scripted_state [] healthy_embedder in
  ∃ summary,
    (get_analysis_summary four_analyses s).1
      = Ok summary
    ∧ sum_counts (clause_type_distribution summary) = total_clauses summary
    ∧ low_confidence_count summary ≤ total_clauses summary.
Proof.
  intros s. eexists. split; [reflexivity|].
  destruct (get_analysis_summary_consistent
              four_analyses s _ eq_refl) as (Hsum & Hlow & _).
  split; [exact Hsum|exact Hlow].
Defined.

Lemma get_analysis_summary_matches_filters_witness :
  let s := scripted_state [] healthy_embedder in
  ∃ summary,
    (get_analysis_summary four_analyses s).1
      = Ok summary
    ∧ low_confidence_count summary = 2
    ∧ default 0 (clause_type_distribution summary !! "Other") = 4
    ∧ default 0 (clause_type_distribution summary !! "NDA") = 0.
Proof.
  intros s. eexists. split; [reflexivity|].
  destruct (get_analysis_summary_matches_filters
              four_analyses s _ eq_refl) as (Hlow & Hty).
  split; [exact (Hlow _ eq_refl)|].
  split; [exact (Hty "Other" _ eq_refl)|exact (Hty "NDA" _ eq_refl)].
Defined.

Lemma analyze_clause_calls_witness :
  embedding_generator
    (analyze_clause clause_nda (scripted_state [] healthy_embedder)).2
    = healthy_embedder
  ∧ List.filter is_call
      (trace (analyze_clause clause_nda
                (scripted_state [Ok confidential] healthy_embedder)).2)
    = [CallPredict (Clause.text clause_nda);
       CallGenerateEmbedding (Clause.text clause_nda)].
Proof.
  split.
  - destruct (analyze_clause_calls clause_nda (scripted_state [] healthy_embedder))
      as (_ & Hr & _).
    exact (proj1 (Hr eq_refl)).
  - destruct (analyze_clause_calls clause_nda
                (scripted_state [Ok confidential] healthy_embedder))
      as (_ & _ & Hok).
    exact (proj2 (Hok eq_refl)).
Defined.

Lemma analyze_clauses_never_raises_witness :
  let s := __init__ one_failure_script 2 0.75%float [] in
  generate_embeddings_batch (map Clause.text five_clauses) true 32
    (embedding_generator s) = (Ok [Some [1%float]; Some [1%float]], 2)
  ∧ ∃ analyses,
      (analyze_clauses five_clauses 32 s).1 = Ok analyses
      ∧ length analyses = 2.
Proof.
  intros s. split; [reflexivity|].
  destruct (analyze_clauses_never_raises five_clauses 32 s)
    as (analyses & Hres & _ & Hok & _).
  exists analyses. split; [exact Hres|].
  exact (Hok _ _ eq_refl).
Defined.

Lemma analyze_clauses_embedding_fallback_witness :
  let clauses := [clause_nda; clause_pay; clause_term; clause_law] in
  let s := scripted_state one_failure_script degraded_embedder in
  clauses ≠ []
  ∧ generate_embeddings_batch (map Clause.text clauses) true 32
      (embedding_generator s) = (Raise (Exception "batch failed"), degraded_embedder)
  ∧ ∃ analyses s' low,
      analyze_clauses clauses 32 s = (Ok analyses, s')
      ∧ length analyses = 4
      ∧ (∃ a, analyses !! 2 = Some a ∧ ClauseAnalysis.embeddings a = None)
      ∧ (∃ a, analyses !! 3 = Some a ∧ ClauseAnalysis.embeddings a = Some [1%float])
      ∧ List.filter is_batch_complete (trace s')
          = [Log INFO (MsgBatchComplete 4 low 1 1)].
Proof.
  intros clauses s.
  assert (Hne : clauses ≠ []) by discriminate.
  assert (Hb : generate_embeddings_batch (map Clause.text clauses) true 32
                 (embedding_generator s)
               = (Raise (Exception "batch failed"), degraded_embedder))
    by reflexivity.
  split; [exact Hne|]. split; [exact Hb|].
  destruct (analyze_clauses_embedding_fallback clauses 32 s _ _ Hne Hb)
    as (analyses & s' & low & Hrun & Hl & Hemb & _ & _ & Htr).
  exists analyses, s', low.
  split; [exact Hrun|]. split; [exact Hl|].
  split; [exact (Hemb 2 (Raise (Exception "bad text")) eq_refl)|].
  split; [exact (Hemb 3 (Ok [1%float]) eq_refl)|exact Htr].
Defined.

Lemma analyze_clauses_calls_witness :
  let s := scripted_state one_failure_script degraded_embedder in
  let texts := [Clause.text clause_nda; Clause.text clause_pay] in
  [clause_nda; clause_pay] ≠ []
  ∧ List.filter is_call (trace (analyze_clauses [clause_nda; clause_pay] 32 s).2)
    = [CallPredict (Clause.text clause_nda); CallPredict (Clause.text clause_pay);
       CallGenerateEmbeddingsBatch texts true 32;
       CallGenerateEmbedding (Clause.text clause_nda);
       CallGenerateEmbedding (Clause.text clause_pay)].
Proof.
  intros s texts.
  assert (Hne : [clause_nda; clause_pay] ≠ []) by discriminate.
  split; [exact Hne|].
  exact (analyze_clauses_calls [clause_nda; clause_pay] 32 s Hne).
Defined.

Lemma analyze_clauses_high_error_rate_witness :
  [clause_nda] ≠ []
  ∧ List.filter is_high_error_rate
      (trace (analyze_clauses [clause_nda] 32 (scripted_state [] healthy_embedder)).2)
    = [Log ERROR (MsgHighErrorRate 1 1)]
  ∧ List.filter is_high_error_rate
      (trace (analyze_clauses five_clauses 32
                (scripted_state one_failure_script healthy_embedder)).2)
    = [].
Proof.
  assert (Hne1 : [clause_nda] ≠ []) by discriminate.
  assert (Hne5 : five_clauses ≠ []) by discriminate.
  split; [exact Hne1|]. split.
  - exact (analyze_clauses_high_error_rate [clause_nda] 32
             (scripted_state [] healthy_embedder) Hne1).
  - exact (analyze_clauses_high_error_rate five_clauses 32
             (scripted_state one_failure_script healthy_embedder) Hne5).
Defined.

Lemma classifier_failure_single_and_batch_witness :
  let s := scripted_state [] healthy_embedder in
  predict (Clause.text clause_nda) (classifier s)
    = (Raise (Exception "no answer scripted"), [])
  ∧ (∃ message details,
       (analyze_clause clause_nda s).1 = Raise (InferenceError message details))
  ∧ ∃ a,
      (analyze_clauses [clause_nda] 32 s).1 = Ok [a]
      ∧ ClauseAnalysis.clause_id a = "c1"
      ∧ ClauseAnalysis.clause_type a = "Other"
      ∧ ClauseAnalysis.confidence_score a = 0.5%float
      ∧ ClauseAnalysis.alternative_types a = [("Other", 0.5%float)].
Proof.
  intros s.
  assert (Hp : predict (Clause.text clause_nda) (classifier s)
               = (Raise (Exception "no answer scripted"), []))
    by reflexivity.
  assert (Hal : ∀ l,
            (generate_embeddings_batch [Clause.text clause_nda] true 32
               (embedding_generator s)).1 = Ok l →
            length l = 1)
    by (intros l [= <-]; reflexivity).
  split; [exact Hp|].
  exact (classifier_failure_single_and_batch clause_nda 32 s _ _ Hp Hal).
Defined.

Lemma failed_classifications_are_low_confidence_witness :
  let s := scripted_state one_failure_script healthy_embedder in
  PrimFloat.ltb 0.5 (confidence_threshold s) = true
  ∧ ∃ analyses a low,
      (analyze_clauses five_clauses 32 s).1 = Ok analyses
      ∧ analyses !! 2 = Some a
      ∧ (get_low_confidence_clauses analyses (analyze_clauses five_clauses 32 s).2).1
          = Ok low
      ∧ a ∈ low.
Proof.
  intros s.
  assert (Ht : PrimFloat.ltb 0.5 (confidence_threshold s) = true) by reflexivity.
  split; [exact Ht|].
  eexists. eexists.
  assert (Hex := failed_classifications_are_low_confidence five_clauses 32 s _ Ht eq_refl
                   2 (Exception "out of memory") _ eq_refl eq_refl).
  destruct Hex as (low & Hlow & Hin).
  exists low. split; [reflexivity|]. split; [reflexivity|].
  split; [exact Hlow|exact Hin].
Defined.

Lemma analyze_clauses_low_confidence_warnings_witness :
  let low : Prediction := ("NDA", 0.4%float, []) in
  let s := scripted_state [Ok confidential; Ok low; Raise (Exception "down")]
             healthy_embedder in
  [clause_nda; clause_pay; clause_term] ≠ []
  ∧ length (List.filter is_low_confidence_warning
              (trace (analyze_clauses [clause_nda; clause_pay; clause_term] 32 s).2))
    = 1.
Proof.
  intros low s.
  assert (Hne : [clause_nda; clause_pay; clause_term] ≠ []) by discriminate.
  split; [exact Hne|].
  exact (analyze_clauses_low_confidence_warnings
           [clause_nda; clause_pay; clause_term] 32 s Hne).
Defined.

Lemma summary_of_batch_counts_failures_witness :
  let s := scripted_state one_failure_script healthy_embedder in
  (∀ l,
     (generate_embeddings_batch (map Clause.text five_clauses) true 32
        (embedding_generator s)).1 = Ok l →
     length l = length (map Clause.text five_clauses))
  ∧ ∃ analyses summary,
      (analyze_clauses five_clauses 32 s).1 = Ok analyses
      ∧ (get_analysis_summary analyses s).1 = Ok summary
      ∧ total_clauses summary = 5
      ∧ 1 ≤ default 0 (clause_type_distribution summary !! "Other").
Proof.
  intros s.
  assert (Hal : ∀ l,
     (generate_embeddings_batch (map Clause.text five_clauses) true 32
        (embedding_generator s)).1 = Ok l →
     length l = length (map Clause.text five_clauses))
    by (intros l [= <-]; reflexivity).
  split; [exact Hal|].
  eexists. eexists. split; [reflexivity|]. split; [reflexivity|].
  exact (summary_of_batch_counts_failures five_clauses 32 s s _ _ Hal eq_refl eq_refl).
Defined.
